(** * Expense splitter: split allocators, balance aggregation, settlement planning

    A shallow embedding of [src/models.py], [src/expense_calculator.py] and
    [src/settlement.py], of the application class of [src/main.py] and of the
    currency converter of [src/currency.py].

    The Python code computes on IEEE binary64 numbers (Python [float],
    [numpy.float64]).  The embedding is written once, over an interface
    [Arith] of the arithmetic operations the code uses, and is run on two
    implementations of it:

    - [F64]: Rocq's primitive binary64 floats, the arithmetic the code runs on,
      used to evaluate the program on concrete inputs;
    - [Exact]: canonical rationals [Qc] with round-half-even, the arithmetic of
      decimal money without representation error, used for the general
      theorems about amounts.

    Theorems about control flow (which calls raise, what they append) are
    stated for every implementation of [Arith]. *)

From Stdlib Require Import ZArith QArith Qcanon Qround Qabs Qcabs Floats Uint63.
From Stdlib Require Import String List Lia Lqa DecimalString.
From stdpp Require Import base option strings gmap.

Set Warnings "-inexact-float".
Set Default Proof Using "Type".

(* ================================================================== *)
(** ** Python exceptions and results *)

(** The exceptions the modelled code can raise.  [ValueError] carries the fixed
    part of its message (the source formats the offending sum into it). *)
Inductive exn : Type :=
| ZeroDivisionError
| ValueError (msg : string)
| KeyError (key : string)
| IndexError
| OverflowError.

(** Outcome of running a piece of code: a value, a raised exception, or
    [Timeout] when a [while True] loop was cut off by its fuel. *)
Inductive res (A : Type) : Type :=
| Ret (a : A)
| Raise (e : exn)
| Timeout.

Arguments Ret {A} a.
Arguments Raise {A} e.
Arguments Timeout {A}.

Definition res_bind {A B : Type} (m : res A) (k : A -> res B) : res B :=
  match m with
  | Ret a => k a
  | Raise e => Raise e
  | Timeout => Timeout
  end.

Notation "x <- m ;; k" := (res_bind m (fun x => k))
  (at level 100, m at next level, right associativity).

(** A method of an object that holds a mutable [S]: the state is returned
    also when the method raises, so that what a failed call left behind can be
    stated. *)
Definition M (S A : Type) : Type := S -> res A * S.

Definition is_raise {A : Type} (r : res A) : bool :=
  match r with Raise _ => true | _ => false end.

Definition is_ret {A : Type} (r : res A) : bool :=
  match r with Ret _ => true | _ => false end.

(* ================================================================== *)
(** ** The arithmetic interface *)

Class Arith (T : Type) : Type := {
  of_Z : Z -> T;               (* int to float conversion *)
  int_truediv : Z -> Z -> option T;
                               (* Python's a / b on two ints, b not 0: the
                                  nearest float, None for OverflowError *)
  fadd : T -> T -> T;
  fsub : T -> T -> T;
  fmul : T -> T -> T;
  fdiv : T -> T -> T;          (* IEEE division: no exception *)
  fabs : T -> T;
  rint : T -> T;               (* numpy.rint: nearest integer, ties to even *)
  flt : T -> T -> bool;
  fle : T -> T -> bool;
  feq : T -> T -> bool;
  is_nan : T -> bool;
  is_finite : T -> bool;
  lit_0_01 : T;                (* the literal 0.01 *)
  lit_rtol : T;                (* numpy.isclose's rtol = 1e-05 *)
  lit_atol : T                 (* numpy.isclose's atol = 1e-08 *)
}.

(* ================================================================== *)
(** ** Data model ([src/models.py]) *)

Inductive SplitMethod : Type := EQUAL | PERCENTAGE | SHARES | CUSTOM.

Module Participant.
Record t : Type := mk { name : string; id : string; email : option string }.
End Participant.

Module ExpenseSplit.
Record t (T : Type) : Type := mk {
  participant_id : string;
  amount : T;
  percentage : option T;
  shares : option Z
}.
Arguments mk {T}.
Arguments participant_id {T}.
Arguments amount {T}.
Arguments percentage {T}.
Arguments shares {T}.
End ExpenseSplit.

(** [date] and [id] of an expense come from the clock and from [uuid4]; no
    modelled function reads them, and they are left out. *)
Module Expense.
Record t (T : Type) : Type := mk {
  description : string;
  total_amount : T;
  paid_by : string;
  currency : string;
  split_method : SplitMethod;
  splits : list (ExpenseSplit.t T);
  is_recurring : bool;
  category : option string
}.
Arguments mk {T}.
Arguments description {T}.
Arguments total_amount {T}.
Arguments paid_by {T}.
Arguments currency {T}.
Arguments split_method {T}.
Arguments splits {T}.
Arguments is_recurring {T}.
Arguments category {T}.
End Expense.

Module Settlement.
Record t (T : Type) : Type := mk {
  from_participant : string;
  to_participant : string;
  amount : T;
  currency : string
}.
Arguments mk {T}.
Arguments from_participant {T}.
Arguments to_participant {T}.
Arguments amount {T}.
Arguments currency {T}.
End Settlement.

(** [id] and [created_at] of a group are left out for the same reason. *)
Module Group.
Record t (T : Type) : Type := mk {
  name : string;
  participants : list Participant.t;
  expenses : list (Expense.t T);
  base_currency : string
}.
Arguments mk {T}.
Arguments name {T}.
Arguments participants {T}.
Arguments expenses {T}.
Arguments base_currency {T}.

(** [self.group.expenses.append(expense)] *)
Definition append_expense {T : Type} (g : t T) (e : Expense.t T) : t T :=
  mk (name g) (participants g) (expenses g ++ [e]) (base_currency g).

(** [Group.get_participant_by_id] *)
Definition get_participant_by_id {T : Type} (g : t T) (participant_id : string)
  : option Participant.t :=
  List.find (fun p => String.eqb (Participant.id p) participant_id) (participants g).

(** [Group.add_participant]: the new participant's id is drawn by [uuid4]
    (its first 8 characters); here it is an input, [uuid]. *)
Definition add_participant {T : Type} (g : t T) (name : string) (email : option string)
  (uuid : string) : Participant.t * t T :=
  let participant := Participant.mk name uuid email in
  (participant, mk (Group.name g) (participants g ++ [participant]) (expenses g)
                  (base_currency g)).

(** [Group.get_participant_by_name]: the first participant whose lower-cased
    name is the lower-cased [name].  [str.lower] is the parameter [lower]. *)
Definition get_participant_by_name {T : Type} (lower : string -> string) (g : t T)
  (name : string) : option Participant.t :=
  List.find (fun p => String.eqb (lower (Participant.name p)) (lower name)) (participants g).
End Group.

(** One row of the DataFrame built by [get_balances]. *)
Module BalanceRow.
Record t (T : Type) : Type := mk {
  participant_id : string;
  name : string;
  balance : T
}.
Arguments mk {T}.
Arguments participant_id {T}.
Arguments name {T}.
Arguments balance {T}.
End BalanceRow.

(* ================================================================== *)
(** ** The program, over any arithmetic *)

Section Program.
Context {T : Type} {A : Arith T}.

(** *** numpy and Python primitives *)

(** [np.round(x, 2)]: numpy multiplies by [10**2], rounds to the nearest
    integer (ties to even) and divides by [10**2]. *)
Definition np_round (x : T) : T :=
  fdiv (rint (fmul x (of_Z 100))) (of_Z 100).

(** [ndarray.sum()] of a float array, starting from the additive identity.
    numpy adds arrays of fewer than 8 elements from left to right, as here; it
    adds longer arrays in blocks, which gives the same sum when the additions
    are exact. *)
Definition np_sum (l : list T) : T := fold_left fadd l (of_Z 0).

(** [np.full(n, x)] *)
Definition np_full (n : nat) (x : T) : list T := repeat x n.

(** [np.isclose(a, b)] with the default [rtol], [atol] and [equal_nan=False]. *)
Definition np_isclose (a b : T) : bool :=
  if is_finite a && is_finite b
  then fle (fabs (fsub a b)) (fadd lit_atol (fmul lit_rtol (fabs b)))
  else feq a b.

(** Python's [min(a, b)]: [b] when [b < a], else [a]. *)
Definition py_min (a b : T) : T := if flt b a then b else a.

(** Python's [total_amount / n] for an [int] [n]. *)
Definition py_truediv_int (x : T) (n : Z) : res T :=
  if (n =? 0)%Z then Raise ZeroDivisionError else Ret (fdiv x (of_Z n)).

(** [np.argmax]: the first index of the maximum; the first [nan] wins. *)
Fixpoint argmax_from (mp : T) (max_ind i : nat) (l : list T) : nat :=
  match l with
  | [] => max_ind
  | x :: l' =>
      if negb (fle x mp)
      then (if is_nan x then i else argmax_from x i (S i) l')
      else argmax_from mp max_ind (S i) l'
  end.

Definition np_argmax (l : list T) : res nat :=
  match l with
  | [] => Raise (ValueError "attempt to get argmax of an empty sequence")
  | x :: l' => Ret (if is_nan x then 0%nat else argmax_from x 0 1 l')
  end.

(** [np.argmin]: the first index of the minimum; the first [nan] wins. *)
Fixpoint argmin_from (mp : T) (min_ind i : nat) (l : list T) : nat :=
  match l with
  | [] => min_ind
  | x :: l' =>
      if negb (fle mp x)
      then (if is_nan x then i else argmin_from x i (S i) l')
      else argmin_from mp min_ind (S i) l'
  end.

Definition np_argmin (l : list T) : res nat :=
  match l with
  | [] => Raise (ValueError "attempt to get argmin of an empty sequence")
  | x :: l' => Ret (if is_nan x then 0%nat else argmin_from x 0 1 l')
  end.

(** [a[i]] on a list or array, for an index that is not negative. *)
Definition getitem {X : Type} (l : list X) (i : nat) : res X :=
  match l !! i with
  | Some x => Ret x
  | None => Raise IndexError
  end.

(** [d[k]] on a dict. *)
Definition dict_getitem (d : gmap string T) (k : string) : res T :=
  match d !! k with
  | Some v => Ret v
  | None => Raise (KeyError k)
  end.

(** [d[k] += v] and [d[k] -= v]: the key is read first. *)
Definition dict_iadd (d : gmap string T) (k : string) (v : T) : res (gmap string T) :=
  old <- dict_getitem d k ;; Ret (<[k := fadd old v]> d).

Definition dict_isub (d : gmap string T) (k : string) (v : T) : res (gmap string T) :=
  old <- dict_getitem d k ;; Ret (<[k := fsub old v]> d).

(** *** [ExpenseCalculator] *)

(** [amounts[0] += v] *)
Definition iadd_first (amounts : list T) (v : T) : res (list T) :=
  old <- getitem amounts 0 ;; Ret (<[0%nat := fadd old v]> amounts).

Definition zip_splits (participants : list string) (amounts : list T)
  : list (ExpenseSplit.t T) :=
  zip_with (fun pid amt => ExpenseSplit.mk pid amt None None) participants amounts.

(** Lines 37-52 of [add_expense_equal]: the split amounts. *)
Definition equal_amounts (total_amount : T) (n : nat) : res (list T) :=
  share <- py_truediv_int total_amount (Z.of_nat n) ;;
  let amount_per_person := np_round share in
  let amounts := np_full n amount_per_person in
  let remainder := fsub total_amount (np_sum amounts) in
  if negb (feq remainder (of_Z 0))
  then iadd_first amounts (np_round remainder)
  else Ret amounts.

Definition add_expense_equal (description : string) (total_amount : T)
  (paid_by : string) (participants : option (list string))
  (currency : string) (category : option string) : M (Group.t T) (Expense.t T) :=
  fun g =>
  let participants :=
    match participants with
    | None => map Participant.id (Group.participants g)
    | Some l => l
    end in
  match equal_amounts total_amount (length participants) with
  | Ret amounts =>
      let splits := zip_splits participants amounts in
      let expense :=
        Expense.mk description total_amount paid_by currency EQUAL splits false category in
      (Ret expense, Group.append_expense g expense)
  | Raise e => (Raise e, g)
  | Timeout => (Timeout, g)
  end.

Definition add_expense_percentage (description : string) (total_amount : T)
  (paid_by : string) (percentages : list (string * T))
  (currency : string) (category : option string) : M (Group.t T) (Expense.t T) :=
  fun g =>
  let pct_array := map snd percentages in
  if negb (np_isclose (np_sum pct_array) (of_Z 100))
  then (Raise (ValueError "Percentages must sum to 100"), g)
  else
    let splits :=
      map (fun '(pid, pct) =>
             ExpenseSplit.mk pid (np_round (fmul total_amount (fdiv pct (of_Z 100))))
               (Some pct) None) percentages in
    let expense :=
      Expense.mk description total_amount paid_by currency PERCENTAGE splits false category in
    (Ret expense, Group.append_expense g expense).

(** [np.array(list(shares.values()))] on Python ints.  numpy finds the dtype
    of each int, on a platform whose C [long] has 64 bits (Linux, macOS, and
    every platform from numpy 2.0 on): [int64] for an int in the range of
    [int64], [uint64] for a larger one below [2^64], [object] for any other.
    The array has the promoted dtype of its elements, where [int64] and
    [uint64] promote to [float64]; an empty list gives a [float64] array. *)
Inductive dtype : Type := Int64 | UInt64 | Float64 | Object.

Definition int_dtype (z : Z) : dtype :=
  if ((- 2 ^ 63 <=? z) && (z <? 2 ^ 63))%Z then Int64
  else if ((2 ^ 63 <=? z) && (z <? 2 ^ 64))%Z then UInt64
  else Object.

Definition promote_types (a b : dtype) : dtype :=
  match a, b with
  | Object, _ | _, Object => Object
  | Int64, Int64 => Int64
  | UInt64, UInt64 => UInt64
  | _, _ => Float64
  end.

Definition array_dtype (l : list Z) : dtype :=
  match l with
  | [] => Float64
  | z :: rest => fold_left (fun d z => promote_types d (int_dtype z)) rest (int_dtype z)
  end.

(** Sum of an [int64] array and of a [uint64] array: numpy wraps around. *)
Definition int64_wrap (z : Z) : Z := ((z + 2 ^ 63) mod 2 ^ 64 - 2 ^ 63)%Z.

Definition np_int_sum (l : list Z) : Z := int64_wrap (fold_left Z.add l 0%Z).

Definition uint64_wrap (z : Z) : Z := (z mod 2 ^ 64)%Z.

(** [shares_array.sum()]: a [numpy.int64], a [numpy.uint64], a [numpy.float64],
    or, for an [object] array, the Python int that adding the elements
    gives. *)
Inductive np_total : Type :=
| total_int64 (z : Z)
| total_uint64 (z : Z)
| total_float64 (x : T)
| total_object (z : Z).

Definition shares_sum (shares_array : list Z) : np_total :=
  match array_dtype shares_array with
  | Int64 => total_int64 (np_int_sum shares_array)
  | UInt64 => total_uint64 (uint64_wrap (fold_left Z.add shares_array 0%Z))
  | Float64 => total_float64 (np_sum (map of_Z shares_array))
  | Object => total_object (fold_left Z.add shares_array 0%Z)
  end.

(** Python's [a / b] on two ints. *)
Definition py_int_truediv (a b : Z) : res T :=
  if (b =? 0)%Z then Raise ZeroDivisionError
  else
    match int_truediv a b with
    | Some q => Ret q
    | None => Raise OverflowError
    end.

(** [share_count / total_shares], a Python int over the sum.  Over a numpy
    number it is numpy's [true_divide], which converts both to binary64 and
    never raises (it warns, and yields [inf] or [nan] for a zero divisor);
    over a Python int it is Python's division, which raises. *)
Definition share_ratio (share_count : Z) (total_shares : np_total) : res T :=
  match total_shares with
  | total_int64 t | total_uint64 t => Ret (fdiv (of_Z share_count) (of_Z t))
  | total_float64 x => Ret (fdiv (of_Z share_count) x)
  | total_object t => py_int_truediv share_count t
  end.

(** The loop over [shares.items()]. *)
Fixpoint shares_splits (total_amount : T) (total_shares : np_total)
  (shares : list (string * Z)) : res (list (ExpenseSplit.t T)) :=
  match shares with
  | [] => Ret []
  | (pid, share_count) :: rest =>
      ratio <- share_ratio share_count total_shares ;;
      let amount := np_round (fmul total_amount ratio) in
      splits <- shares_splits total_amount total_shares rest ;;
      Ret (ExpenseSplit.mk pid amount None (Some share_count) :: splits)
  end.

Definition add_expense_shares (description : string) (total_amount : T)
  (paid_by : string) (shares : list (string * Z))
  (currency : string) (category : option string) : M (Group.t T) (Expense.t T) :=
  fun g =>
  let shares_array := map snd shares in
  let total_shares := shares_sum shares_array in
  match shares_splits total_amount total_shares shares with
  | Ret splits =>
      let expense :=
        Expense.mk description total_amount paid_by currency SHARES splits false category in
      (Ret expense, Group.append_expense g expense)
  | Raise e => (Raise e, g)
  | Timeout => (Timeout, g)
  end.

Definition add_expense_custom (description : string) (total_amount : T)
  (paid_by : string) (custom_amounts : list (string * T))
  (currency : string) (category : option string) : M (Group.t T) (Expense.t T) :=
  fun g =>
  let amounts_array := map snd custom_amounts in
  if negb (np_isclose (np_sum amounts_array) total_amount)
  then (Raise (ValueError "Custom amounts must sum to total"), g)
  else
    let splits :=
      map (fun '(pid, amt) => ExpenseSplit.mk pid amt None None) custom_amounts in
    let expense :=
      Expense.mk description total_amount paid_by currency CUSTOM splits false category in
    (Ret expense, Group.append_expense g expense).

(** [{p.id: 0.0 for p in self.group.participants}] *)
Definition zero_balances (ps : list Participant.t) : gmap string T :=
  fold_left (fun d p => <[Participant.id p := of_Z 0]> d) ps ∅.

(** The inner loop of [get_balances]: every split is debited. *)
Fixpoint debit_splits (balances : gmap string T) (splits : list (ExpenseSplit.t T))
  : res (gmap string T) :=
  match splits with
  | [] => Ret balances
  | split :: rest =>
      b <- dict_isub balances (ExpenseSplit.participant_id split) (ExpenseSplit.amount split) ;;
      debit_splits b rest
  end.

(** The outer loop of [get_balances]. *)
Fixpoint aggregate (balances : gmap string T) (expenses : list (Expense.t T))
  : res (gmap string T) :=
  match expenses with
  | [] => Ret balances
  | expense :: rest =>
      b <- dict_iadd balances (Expense.paid_by expense) (Expense.total_amount expense) ;;
      b <- debit_splits b (Expense.splits expense) ;;
      aggregate b rest
  end.

(** The rows of the DataFrame. *)
Fixpoint balance_rows (balances : gmap string T) (ps : list Participant.t)
  : res (list (BalanceRow.t T)) :=
  match ps with
  | [] => Ret []
  | p :: rest =>
      b <- dict_getitem balances (Participant.id p) ;;
      rows <- balance_rows balances rest ;;
      Ret (BalanceRow.mk (Participant.id p) (Participant.name p) (np_round b) :: rows)
  end.

Definition get_balances : M (Group.t T) (list (BalanceRow.t T)) :=
  fun g =>
  (balances <- aggregate (zero_balances (Group.participants g)) (Group.expenses g) ;;
   balance_rows balances (Group.participants g), g).

(** *** [SettlementOptimizer] *)

(** One pass through the body of the [while True] loop: [None] is [break],
    otherwise the settlement's debtor and creditor indices, its amount and
    the updated balances. *)
Definition settle_step (balances : list T) : res (option (nat * nat * T * list T)) :=
  max_credit_idx <- np_argmax balances ;;
  max_debit_idx <- np_argmin balances ;;
  max_credit <- getitem balances max_credit_idx ;;
  max_debit <- getitem balances max_debit_idx ;;
  if flt max_credit lit_0_01 && flt (fabs max_debit) lit_0_01 then Ret None
  else
    let transfer_amount := np_round (py_min max_credit (fabs max_debit)) in
    if flt transfer_amount lit_0_01 then Ret None
    else
      c <- getitem balances max_credit_idx ;;
      let balances1 := <[max_credit_idx := fsub c transfer_amount]> balances in
      d <- getitem balances1 max_debit_idx ;;
      let balances2 := <[max_debit_idx := fadd d transfer_amount]> balances1 in
      Ret (Some (max_debit_idx, max_credit_idx, transfer_amount, balances2)).

(** The [while True] loop, cut off after [fuel] passes. *)
Fixpoint settle_loop (fuel : nat) (base_currency : string) (participants : list string)
  (balances : list T) (settlements : list (Settlement.t T))
  : res (list (Settlement.t T)) :=
  match fuel with
  | O => Timeout
  | S fuel' =>
      step <- settle_step balances ;;
      match step with
      | None => Ret settlements
      | Some (max_debit_idx, max_credit_idx, transfer_amount, balances') =>
          from <- getitem participants max_debit_idx ;;
          to <- getitem participants max_credit_idx ;;
          let s := Settlement.mk from to transfer_amount base_currency in
          settle_loop fuel' base_currency participants balances' (settlements ++ [s])
      end
  end.

(** [balances_df['participant_id']] and [balances_df['balance']]: a DataFrame
    built from an empty list of rows has no columns. *)
Definition df_column {X : Type} (rows : list (BalanceRow.t T)) (col : string)
  (f : BalanceRow.t T -> X) : res (list X) :=
  match rows with
  | [] => Raise (KeyError col)
  | _ => Ret (map f rows)
  end.

Definition calculate_optimal_settlements (fuel : nat)
  : M (Group.t T) (list (Settlement.t T)) :=
  fun g =>
  let '(r, g) := get_balances g in
  (balances_df <- r ;;
   participants <- df_column balances_df "participant_id" BalanceRow.participant_id ;;
   balances <- df_column balances_df "balance" BalanceRow.balance ;;
   settle_loop fuel (Group.base_currency g) participants balances [], g).

(** [calculate_min_transactions] *)
Definition calculate_min_transactions (balances : list T) : Z :=
  let non_zero :=
    Z.of_nat (length (List.filter (fun b => flt lit_0_01 (fabs b)) balances)) in
  Z.max 0 (non_zero - 1).



End Program.

(* ================================================================== *)
(** ** binary64 arithmetic *)

Definition two52 : float := 4503599627370496%float.

(** Nearest integer, ties to even, with the sign of the argument: adding and
    subtracting [2^52] rounds a magnitude below [2^52] to an integer, and
    larger magnitudes are integers already. *)
Definition f64_rint (x : float) : float :=
  let a := PrimFloat.abs x in
  let r := if PrimFloat.ltb a two52 then ((a + two52) - two52)%float else a in
  if get_sign x then (- r)%float else r.

(** [n / d] rounded to the nearest integer, ties to even, for [0 <= n] and
    [0 < d]. *)
Definition div_half_even (n d : Z) : Z :=
  let q := (n / d)%Z in
  match (2 * (n mod d) ?= d)%Z with
  | Lt => q
  | Gt => (q + 1)%Z
  | Eq => if Z.even q then q else (q + 1)%Z
  end.

(** The binary64 number nearest to [a / b], ties to even, for [0 < a] and
    [0 < b]: its mantissa [m] and exponent [shift], the number being
    [m * 2^shift]; [None] when it is [2^1024] or more. *)
Definition f64_nearest_ratio (a b : Z) : option (Z * Z) :=
  let d := (Z.log2 a - Z.log2 b)%Z in
  let e :=
    if (if 0 <=? d then b * 2 ^ d <=? a else b <=? a * 2 ^ (- d))%Z then d else (d - 1)%Z in
  let shift := Z.max (e - 52) (-1074) in
  let m :=
    if (0 <=? shift)%Z then div_half_even a (b * 2 ^ shift)
    else div_half_even (a * 2 ^ (- shift)) b in
  if (1024 <? shift + Z.log2 m + 1)%Z then None else Some (m, shift).

(** Python's [a / b] on two ints, [b] not zero: the quotient rounded once,
    or [None] where Python raises [OverflowError]. *)
Definition f64_int_truediv (a b : Z) : option float :=
  let negate := xorb (a <? 0)%Z (b <? 0)%Z in
  let zero := if negate then (-0)%float else 0%float in
  if (a =? 0)%Z then Some zero
  else
    match f64_nearest_ratio (Z.abs a) (Z.abs b) with
    | None => None
    | Some (m, shift) =>
        Some (if (m =? 0)%Z then zero else SF2Prim (S754_finite negate (Z.to_pos m) shift))
    end.

(** Conversion of an integer to the nearest float.  Below [2^63] in magnitude
    it is the machine's conversion; the integers that numpy converts are below
    [2^64] in magnitude, and for one that rounds to [2^1024] or more, which no
    modelled path converts, it is an infinity. *)
Definition f64_of_Z (z : Z) : float :=
  if (Z.abs z <? 2 ^ 63)%Z then
    if (z <? 0)%Z then (- PrimFloat.of_uint63 (Uint63.of_Z (- z)))%float
    else PrimFloat.of_uint63 (Uint63.of_Z z)
  else
    match f64_int_truediv z 1 with
    | Some x => x
    | None => if (z <? 0)%Z then neg_infinity else infinity
    end.

Definition f64_is_finite (x : float) : bool :=
  negb (PrimFloat.is_nan x) && negb (PrimFloat.is_infinity x).

#[export] Instance F64 : Arith float := {|
  of_Z := f64_of_Z;
  int_truediv := f64_int_truediv;
  fadd := PrimFloat.add;
  fsub := PrimFloat.sub;
  fmul := PrimFloat.mul;
  fdiv := PrimFloat.div;
  fabs := PrimFloat.abs;
  rint := f64_rint;
  flt := PrimFloat.ltb;
  fle := PrimFloat.leb;
  feq := PrimFloat.eqb;
  is_nan := PrimFloat.is_nan;
  is_finite := f64_is_finite;
  lit_0_01 := 0.01%float;
  lit_rtol := 1e-05%float;
  lit_atol := 1e-08%float
|}.

(* ================================================================== *)
(** ** Exact arithmetic *)

(** Rationals have no infinities and no [nan]: [fdiv] by zero is [Qcdiv]'s 0,
    which is not what the code computes, and no statement below about exact
    arithmetic divides by zero. *)

(** Round half to even. *)
Definition Qrint (q : Q) : Z :=
  let f := Qfloor q in
  match Qcompare (q - inject_Z f) (1 # 2) with
  | Lt => f
  | Gt => (f + 1)%Z
  | Eq => if Z.even f then f else (f + 1)%Z
  end.

Definition Qcltb (x y : Qc) : bool :=
  match Qccompare x y with Lt => true | _ => false end.

Definition Qcleb (x y : Qc) : bool :=
  match Qccompare x y with Gt => false | _ => true end.

#[export] Instance Exact : Arith Qc := {|
  of_Z := fun z => Q2Qc (inject_Z z);
  int_truediv := fun a b => Some (Qcdiv (Q2Qc (inject_Z a)) (Q2Qc (inject_Z b)));
  fadd := Qcplus;
  fsub := Qcminus;
  fmul := Qcmult;
  fdiv := Qcdiv;
  fabs := Qcabs;
  rint := fun x => Q2Qc (inject_Z (Qrint x));
  flt := Qcltb;
  fle := Qcleb;
  feq := Qc_eq_bool;
  is_nan := fun _ => false;
  is_finite := fun _ => true;
  lit_0_01 := Q2Qc (1 # 100);
  lit_rtol := Q2Qc (1 # 100000);
  lit_atol := Q2Qc (1 # 100000000)
|}.

(** A whole number of cents. *)
Definition cents (z : Z) : Qc := Q2Qc (z # 100).

(* ================================================================== *)
(** ** Vocabulary of the statements *)

(** Mathematical sum of a list of amounts. *)
Definition Qcsum (l : list Qc) : Qc := foldr Qcplus (Q2Qc 0) l.

(** The participants an equal split is taken over: the given list, or every
    participant of the group. *)
Definition equal_participants {T : Type} (g : Group.t T) (participants : option (list string))
  : list string :=
  match participants with
  | None => map Participant.id (Group.participants g)
  | Some l => l
  end.


(** The integers that fit in 64 bits, signed or unsigned. *)
Definition fits_64 (z : Z) : bool := ((- 2 ^ 63 <=? z) && (z <? 2 ^ 64))%Z.

(** [k] is one of [ids]. *)
Definition known_id (ids : list string) (k : string) : bool :=
  existsb (String.eqb k) ids.

(** The payer and every split participant of [e] are among [ids]. *)
Definition expense_refs_ok {T : Type} (ids : list string) (e : Expense.t T) : bool :=
  known_id ids (Expense.paid_by e)
  && forallb (fun s => known_id ids (ExpenseSplit.participant_id s)) (Expense.splits e).

(** Every id an expense refers to is the id of a participant of the group. *)
Definition refs_ok {T : Type} (g : Group.t T) : bool :=
  forallb (expense_refs_ok (map Participant.id (Group.participants g))) (Group.expenses g).

(** The keys of a balance dict are the ids [ids]. *)
Definition keys_are {T : Type} (ids : list string) (d : gmap string T) : Prop :=
  forall k : string, is_Some (d !! k) <-> known_id ids k = true.

(** The rows built from a balance dict that holds every participant's id. *)
Definition rows_of {T : Type} {A : Arith T} (d : gmap string T) (ps : list Participant.t)
  : list (BalanceRow.t T) :=
  map (fun p =>
         BalanceRow.mk (Participant.id p) (Participant.name p)
           (np_round (default (of_Z 0) (d !! Participant.id p)))) ps.

(** What the splits of one expense debit participant [k]. *)
Fixpoint debits (k : string) (splits : list (ExpenseSplit.t Qc)) : Qc :=
  match splits with
  | [] => Q2Qc 0
  | s :: rest =>
      ((if String.eqb (ExpenseSplit.participant_id s) k
        then ExpenseSplit.amount s else Q2Qc 0) + debits k rest)%Qc
  end.

(** What one expense credits participant [k]. *)
Definition credit (k : string) (e : Expense.t Qc) : Qc :=
  if String.eqb (Expense.paid_by e) k then Expense.total_amount e else Q2Qc 0.

(** The net position of participant [k] over a list of expenses. *)
Fixpoint net (k : string) (expenses : list (Expense.t Qc)) : Qc :=
  match expenses with
  | [] => Q2Qc 0
  | e :: rest => ((credit k e - debits k (Expense.splits e)) + net k rest)%Qc
  end.

(** The group with another sequence of expenses. *)
Definition with_expenses {T : Type} (g : Group.t T) (expenses : list (Expense.t T))
  : Group.t T :=
  Group.mk (Group.name g) (Group.participants g) expenses (Group.base_currency g).



(** One call of [add_expense_equal], its total given in cents. *)
Record EqualCall : Type := {
  ec_description : string;
  ec_total_cents : Z;
  ec_paid_by : string;
  ec_participants : option (list string);
  ec_currency : string;
  ec_category : option string
}.

(** A sequence of [add_expense_equal] calls on one group; it stops at the
    first call that raises. *)
Fixpoint add_equal_expenses (calls : list EqualCall) : M (Group.t Qc) unit :=
  fun g =>
  match calls with
  | [] => (Ret tt, g)
  | c :: rest =>
      match add_expense_equal (ec_description c) (cents (ec_total_cents c)) (ec_paid_by c)
              (ec_participants c) (ec_currency c) (ec_category c) g with
      | (Ret _, g') => add_equal_expenses rest g'
      | (Raise e, g') => (Raise e, g')
      | (Timeout, g') => (Timeout, g')
      end
  end.






(* ================================================================== *)
(** ** Sample groups *)

(** A participant whose name is its id. *)
Definition person (pid : string) : Participant.t := Participant.mk pid pid None.

(** A group of three without expenses. *)
Definition trio {T : Type} : Group.t T :=
  Group.mk "Trip" [person "A"; person "B"; person "C"] [] "BGN".

(** Dinner 90.00 paid by A, taxi 30.00 paid by B, museum 45.00 paid by C, each
    split equally among A, B and C. *)
Definition trip_calls : list EqualCall :=
  [ Build_EqualCall "Dinner" 9000 "A" None "BGN" None;
    Build_EqualCall "Taxi" 3000 "B" None "BGN" None;
    Build_EqualCall "Museum" 4500 "C" None "BGN" None ].

(** The group after the three calls. *)
Definition trip : Group.t Qc := snd (add_equal_expenses trip_calls trio).

(** The ids and balances of a returned table. *)
Definition balances_of {T : Type} (r : res (list (BalanceRow.t T))) : list (string * T) :=
  match r with
  | Ret rows => map (fun r => (BalanceRow.participant_id r, BalanceRow.balance r)) rows
  | _ => []
  end.

(** A group of seven, and one share each. *)
Definition seven {T : Type} : Group.t T :=
  Group.mk "Seven"
    [person "P1"; person "P2"; person "P3"; person "P4"; person "P5"; person "P6";
     person "P7"] [] "BGN".


(** A loan of 1e17, a coffee for 1.00, and the loan paid back. *)
Definition loan : Expense.t float :=
  Expense.mk "Loan" 1e17%float "A" "BGN" CUSTOM [ExpenseSplit.mk "B" 1e17%float None None]
    false None.

Definition coffee : Expense.t float :=
  Expense.mk "Coffee" 1%float "A" "BGN" CUSTOM [ExpenseSplit.mk "B" 1%float None None]
    false None.

Definition refund : Expense.t float :=
  Expense.mk "Refund" 1e17%float "B" "BGN" CUSTOM [ExpenseSplit.mk "A" 1e17%float None None]
    false None.

(** The binary64 amount of [c] cents, as the literal [c/100] is read. *)
Definition f64_cents (c : Z) : float := PrimFloat.div (f64_of_Z c) 100%float.

(** The number that a finite binary64 number stands for. *)
Definition f64_value (x : float) : Q :=
  match Prim2SF x with
  | S754_finite s m e =>
      let z := if s then Z.neg m else Z.pos m in
      if (0 <=? e)%Z then inject_Z (z * 2 ^ e) else z # (2 ^ Z.to_pos (- e))%positive
  | _ => 0%Q
  end.

(** The sum of the numbers that a list of binary64 numbers stand for. *)
Definition f64_exact_sum (l : list float) : Q := Qred (fold_right Qplus 0%Q (map f64_value l)).

(** What C1 asks of an equal split of [c] cents over [n] participants, in
    binary64: [n] amounts whose sum, rounded to 2 decimals, is the total
    (compared with Python's [==]). *)
Definition equal_sum_ok (c : Z) (n : nat) : bool :=
  match @equal_amounts float F64 (f64_cents c) n with
  | Ret amounts =>
      (length amounts =? n)%nat
      && PrimFloat.eqb (np_round (np_sum amounts)) (f64_cents c)
  | _ => false
  end.

(** [f] holds of the [k] integers from [c] on. *)
Fixpoint all_from (k : nat) (c : Z) (f : Z -> bool) : bool :=
  match k with
  | O => true
  | S k' => f c && all_from k' (c + 1)%Z f
  end.

(** The seven after P1 paid 100,000,000,000,000.00 for all of them. *)
Definition treasury_group : Group.t float :=
  snd (add_expense_equal "Treasury" 1e14%float "P1" None "BGN" None seven).

(** A group of two, and the group after A paid 0.02 for both. *)
Definition pair_group : Group.t float := Group.mk "Pair" [person "A"; person "B"] [] "BGN".




(* ================================================================== *)
(** ** The rest of the code: summaries, the application, currencies *)

(** *** [ExpenseCalculator.get_expense_summary] *)

(** [SplitMethod.value] *)
Definition SplitMethod_value (m : SplitMethod) : string :=
  match m with
  | EQUAL => "equal"
  | PERCENTAGE => "percentage"
  | SHARES => "shares"
  | CUSTOM => "custom"
  end.

(** One row of the summary.  The columns ['id'] and ['date'] copy the two
    fields that the [Expense] record leaves out. *)
Module ExpenseSummaryRow.
Record t (T : Type) : Type := mk {
  description : string;
  amount : T;
  currency : string;
  paid_by : string;
  split_method : string;
  category : option string
}.
Arguments mk {T}.
Arguments description {T}.
Arguments amount {T}.
Arguments currency {T}.
Arguments paid_by {T}.
Arguments split_method {T}.
Arguments category {T}.
End ExpenseSummaryRow.

(** [p.name if p else participant_id], for [p = get_participant_by_id(...)]. *)
Definition name_or_id {T : Type} (g : Group.t T) (participant_id : string) : string :=
  match Group.get_participant_by_id g participant_id with
  | Some p => Participant.name p
  | None => participant_id
  end.

Definition expense_summary_row {T : Type} (g : Group.t T) (exp : Expense.t T)
  : ExpenseSummaryRow.t T :=
  ExpenseSummaryRow.mk (Expense.description exp) (Expense.total_amount exp)
    (Expense.currency exp) (name_or_id g (Expense.paid_by exp))
    (SplitMethod_value (Expense.split_method exp)) (Expense.category exp).

(** The rows of the DataFrame; no rows (and no columns) without expenses. *)
Definition get_expense_summary {T : Type} : M (Group.t T) (list (ExpenseSummaryRow.t T)) :=
  fun g =>
  match Group.expenses g with
  | [] => (Ret [], g)
  | expenses => (Ret (map (expense_summary_row g) expenses), g)
  end.

(** *** [SettlementOptimizer]: the DataFrame and the text *)

Module SettlementRow.
Record t (T : Type) : Type := mk {
  from : string;
  to : string;
  amount : T;
  currency : string
}.
Arguments mk {T}.
Arguments from {T}.
Arguments to {T}.
Arguments amount {T}.
Arguments currency {T}.
End SettlementRow.

Definition settlement_row {T : Type} (g : Group.t T) (s : Settlement.t T)
  : SettlementRow.t T :=
  SettlementRow.mk (name_or_id g (Settlement.from_participant s))
    (name_or_id g (Settlement.to_participant s)) (Settlement.amount s)
    (Settlement.currency s).

Definition get_settlements_dataframe {T : Type} {A : Arith T} (fuel : nat)
  : M (Group.t T) (list (SettlementRow.t T)) :=
  fun g =>
  let '(r, g) := calculate_optimal_settlements fuel g in
  (settlements <- r ;;
   match settlements with
   | [] => Ret []
   | _ => Ret (map (settlement_row g) settlements)
   end, g).

(** [str(n)] for an [int] that is not negative. *)
Definition str_of_nat (n : nat) : string := NilZero.string_of_uint (Nat.to_uint n).

(** ["\n".join(lines)] *)
Definition join_lines (lines : list string) : string := String.concat (String (Ascii.ascii_of_nat 10) EmptyString) lines.

(** The numbered lines of the summary, [enumerate(settlements, i)].  The format
    [{s.amount:.2f}] of an amount is the parameter [format_2f]. *)
Fixpoint settlement_lines {T : Type} (format_2f : T -> string) (g : Group.t T) (i : nat)
  (settlements : list (Settlement.t T)) : list string :=
  match settlements with
  | [] => []
  | s :: rest =>
      ("  " ++ str_of_nat i ++ ". " ++ name_or_id g (Settlement.from_participant s)
       ++ " pays " ++ name_or_id g (Settlement.to_participant s) ++ ": "
       ++ format_2f (Settlement.amount s) ++ " " ++ Settlement.currency s)%string
      :: settlement_lines format_2f g (S i) rest
  end.

Definition get_settlement_summary {T : Type} {A : Arith T} (format_2f : T -> string)
  (fuel : nat) : M (Group.t T) string :=
  fun g =>
  let '(r, g) := calculate_optimal_settlements fuel g in
  (settlements <- r ;;
   match settlements with
   | [] => Ret "All settled! No payments needed."%string
   | _ =>
       let lines := ["Settlements needed:"; ""]%string in
       let lines := lines ++ settlement_lines format_2f g 1 settlements in
       let lines := lines ++ [""%string] in
       let lines :=
         lines ++ [("Total transactions: " ++ str_of_nat (length settlements))%string] in
       Ret (join_lines lines)
   end, g).

(** *** [ExpenseSplitterApp] ([src/main.py]) *)

(** What [add_expense] is asked to do: [split_method] with the [split_data]
    its allocator takes ([None] when no mapping is passed).  [OtherMethod] is a
    method string that is none of the four. *)
Inductive SplitRequest (T : Type) : Type :=
| EqualSplit
| PercentageSplit (split_data : option (list (string * T)))
| SharesSplit (split_data : option (list (string * Z)))
| CustomSplit (split_data : option (list (string * T)))
| OtherMethod (split_method : string).

Arguments EqualSplit {T}.
Arguments PercentageSplit {T} split_data.
Arguments SharesSplit {T} split_data.
Arguments CustomSplit {T} split_data.
Arguments OtherMethod {T} split_method.

(** The lines the application prints; an amount is printed by a format, which
    the line carries as the amount itself. *)
Inductive Printed (T : Type) : Type :=
| CreatedGroup (name : string)
| AddedParticipant (name id : string)
| ErrorCreateGroupFirst
| ErrorParticipantNotFound (name : string)
| ErrorSplitDataRequired (m : SplitMethod)
| ErrorUnknownMethod (split_method : string)
| AddedExpense (description : string) (amount : T) (currency : string)
| ErrorValue (msg : string)
| BalancesHeader
| NoData
| BalanceLine (name : string) (owes : bool) (magnitude : T)
| ExpensesHeader
| NoExpenses
| ExpenseLine (split_method description : string) (amount : T) (paid_by : string)
| BlankLine
| SummaryText (text : string).

Arguments CreatedGroup {T} name.
Arguments AddedParticipant {T} name id.
Arguments ErrorCreateGroupFirst {T}.
Arguments ErrorParticipantNotFound {T} name.
Arguments ErrorSplitDataRequired {T} m.
Arguments ErrorUnknownMethod {T} split_method.
Arguments AddedExpense {T} description amount currency.
Arguments ErrorValue {T} msg.
Arguments BalancesHeader {T}.
Arguments NoData {T}.
Arguments BalanceLine {T} name owes magnitude.
Arguments ExpensesHeader {T}.
Arguments NoExpenses {T}.
Arguments ExpenseLine {T} split_method description amount paid_by.
Arguments BlankLine {T}.
Arguments SummaryText {T} text.

(** [d[k] = v] on a dict in insertion order: a key that is present keeps its
    place and changes its value. *)
Fixpoint dict_setitem {V : Type} (d : list (string * V)) (k : string) (v : V)
  : list (string * V) :=
  match d with
  | [] => [(k, v)]
  | (k', v') :: rest =>
      if String.eqb k' k then (k', v) :: rest else (k', v') :: dict_setitem rest k v
  end.

Section App.
Context {T : Type} {A : Arith T}.
Variable lower : string -> string.

(** The application's state: its group, if one was created.  The calculator
    and the optimizer hold the same group object. *)
Definition AppState : Type := option (Group.t T).

(** A method of the application: whether it returns or lets an exception
    through, the lines it has printed by then, and the state it leaves. *)
Definition AppM : Type := AppState -> res unit * list (Printed T) * AppState.

Definition create_group (name : string) (base_currency : string) : AppM :=
  fun _ => (Ret tt, [CreatedGroup name], Some (Group.mk name [] [] base_currency)).

Definition app_add_participant (name : string) (uuid : string) : AppM :=
  fun st =>
  match st with
  | None => (Ret tt, [ErrorCreateGroupFirst], st)
  | Some g =>
      let '(p, g) := Group.add_participant g name None uuid in
      (Ret tt, [AddedParticipant name (Participant.id p)], Some g)
  end.

(** The loops "Convert names to IDs": a name that no participant has is
    skipped. *)
Fixpoint names_to_ids {V : Type} (g : Group.t T) (split_data : list (string * V))
  (by_id : list (string * V)) : list (string * V) :=
  match split_data with
  | [] => by_id
  | (name, v) :: rest =>
      match Group.get_participant_by_name lower g name with
      | Some p => names_to_ids g rest (dict_setitem by_id (Participant.id p) v)
      | None => names_to_ids g rest by_id
      end
  end.

(** [if not split_data]: no mapping, or an empty one. *)
Definition no_split_data {V : Type} (split_data : option (list (string * V))) : bool :=
  match split_data with
  | None | Some [] => true
  | Some (_ :: _) => false
  end.

Definition data_of {V : Type} (split_data : option (list (string * V))) : list (string * V) :=
  match split_data with
  | None => []
  | Some d => d
  end.

(** The end of [add_expense]: the line printed after the allocator has
    returned, and [except ValueError]. *)
Definition finish_add_expense (description : string) (amount : T)
  (r : res (Expense.t T) * Group.t T) : res unit * list (Printed T) * AppState :=
  match r with
  | (Ret _, g) => (Ret tt, [AddedExpense description amount (Group.base_currency g)], Some g)
  | (Raise (ValueError msg), g) => (Ret tt, [ErrorValue msg], Some g)
  | (Raise e, g) => (Raise e, [], Some g)
  | (Timeout, g) => (Timeout, [], Some g)
  end.

Definition add_expense (description : string) (amount : T) (paid_by_name : string)
  (request : SplitRequest T) : AppM :=
  fun st =>
  match st with
  | None => (Ret tt, [ErrorCreateGroupFirst], st)
  | Some g =>
      match Group.get_participant_by_name lower g paid_by_name with
      | None => (Ret tt, [ErrorParticipantNotFound paid_by_name], st)
      | Some payer =>
          match request with
          | EqualSplit =>
              finish_add_expense description amount
                (add_expense_equal description amount (Participant.id payer) None "BGN" None g)
          | PercentageSplit split_data =>
              if no_split_data split_data
              then (Ret tt, [ErrorSplitDataRequired PERCENTAGE], st)
              else
                finish_add_expense description amount
                  (add_expense_percentage description amount (Participant.id payer)
                     (names_to_ids g (data_of split_data) []) "BGN" None g)
          | SharesSplit split_data =>
              if no_split_data split_data
              then (Ret tt, [ErrorSplitDataRequired SHARES], st)
              else
                finish_add_expense description amount
                  (add_expense_shares description amount (Participant.id payer)
                     (names_to_ids g (data_of split_data) []) "BGN" None g)
          | CustomSplit split_data =>
              if no_split_data split_data
              then (Ret tt, [ErrorSplitDataRequired CUSTOM], st)
              else
                finish_add_expense description amount
                  (add_expense_custom description amount (Participant.id payer)
                     (names_to_ids g (data_of split_data) []) "BGN" None g)
          | OtherMethod split_method => (Ret tt, [ErrorUnknownMethod split_method], st)
          end
      end
  end.

(** [show_balances]: the header is printed before the balances are computed;
    a balance below zero is printed as "owes", any other as "is owed", with
    its magnitude. *)
Definition show_balances : AppM :=
  fun st =>
  match st with
  | None => (Ret tt, [ErrorCreateGroupFirst], st)
  | Some g =>
      match get_balances g with
      | (Ret [], g) => (Ret tt, [BalancesHeader; NoData], Some g)
      | (Ret df, g) =>
          (Ret tt,
           [BalancesHeader]
           ++ map (fun row =>
                     let balance := BalanceRow.balance row in
                     BalanceLine (BalanceRow.name row) (flt balance (of_Z 0)) (fabs balance))
                df
           ++ [BlankLine], Some g)
      | (Raise e, g) => (Raise e, [BalancesHeader], Some g)
      | (Timeout, g) => (Timeout, [BalancesHeader], Some g)
      end
  end.

(** [show_expenses] *)
Definition show_expenses : AppM :=
  fun st =>
  match st with
  | None => (Ret tt, [ErrorCreateGroupFirst], st)
  | Some g =>
      match get_expense_summary g with
      | (Ret [], g) => (Ret tt, [ExpensesHeader; NoExpenses], Some g)
      | (Ret df, g) =>
          (Ret tt,
           [ExpensesHeader]
           ++ map (fun row =>
                     ExpenseLine (ExpenseSummaryRow.split_method row)
                       (ExpenseSummaryRow.description row) (ExpenseSummaryRow.amount row)
                       (ExpenseSummaryRow.paid_by row)) df
           ++ [BlankLine], Some g)
      | (Raise e, g) => (Raise e, [ExpensesHeader], Some g)
      | (Timeout, g) => (Timeout, [ExpensesHeader], Some g)
      end
  end.

(** [show_settlements] *)
Definition show_settlements (format_2f : T -> string) (fuel : nat) : AppM :=
  fun st =>
  match st with
  | None => (Ret tt, [ErrorCreateGroupFirst], st)
  | Some g =>
      match get_settlement_summary format_2f fuel g with
      | (Ret text, g) => (Ret tt, [SummaryText text], Some g)
      | (Raise e, g) => (Raise e, [], Some g)
      | (Timeout, g) => (Timeout, [], Some g)
      end
  end.

(** The calls that change the application's state. *)
Inductive Command : Type :=
| DoCreateGroup (name base_currency : string)
| DoAddParticipant (name uuid : string)
| DoAddExpense (description : string) (amount : T) (paid_by_name : string)
    (request : SplitRequest T).

Definition run_command (c : Command) : AppM :=
  match c with
  | DoCreateGroup name base_currency => create_group name base_currency
  | DoAddParticipant name uuid => app_add_participant name uuid
  | DoAddExpense description amount paid_by_name request =>
      add_expense description amount paid_by_name request
  end.

(** A session: the calls one after the other, from the state [st].  A call
    that raises leaves its state to the next call, as the interactive loop
    does. *)
Definition run_commands (cs : list Command) (st : AppState) : AppState :=
  fold_left (fun st c => snd (run_command c st)) cs st.

End App.

(** *** [CurrencyConverter] ([src/currency.py]) *)

(** What a conversion can raise: the [Exception] of a failed fetch, with the
    HTTP status, and [ZeroDivisionError]. *)
Inductive CurrencyError : Type :=
| FetchFailed (status : Z)
| RateIsZero.

Inductive Outcome (X : Type) : Type :=
| Done (x : X)
| Failed (e : CurrencyError).

Arguments Done {X} x.
Arguments Failed {X} e.

(** What the rates service answers: the HTTP status, and the ['rates'] entry
    of the JSON body, if it has one. *)
Record Response (T : Type) : Type := {
  status : Z;
  rates : option (gmap string T)
}.
Arguments status {T}.
Arguments rates {T}.

(** The converter; times are in microseconds. *)
Module CurrencyConverter.
Record t (T : Type) : Type := mk {
  base_currency : string;
  _rates_cache : gmap string T;
  _cache_timestamp : option Z
}.
Arguments mk {T}.
Arguments base_currency {T}.
Arguments _rates_cache {T}.
Arguments _cache_timestamp {T}.
End CurrencyConverter.

(** [timedelta(hours=1)] *)
Definition CACHE_DURATION : Z := (3600 * 1000000)%Z.

Section Currency.
Context {T : Type} {A : Arith T}.

(** [CurrencyConverter(base_currency)] *)
Definition new_converter (base_currency : string) : CurrencyConverter.t T :=
  CurrencyConverter.mk base_currency ∅ None.

(** [not d] for a dict. *)
Definition dict_is_empty (d : gmap string T) : bool :=
  match map_to_list d with
  | [] => true
  | _ :: _ => false
  end.

(** [fetch_rates], for the answer [response] that arrives at [fetch_time]. *)
Definition fetch_rates (response : Response T) (fetch_time : Z) (c : CurrencyConverter.t T)
  : Outcome (gmap string T) * CurrencyConverter.t T :=
  if (status response =? 200)%Z
  then
    let cache := default ∅ (rates response) in
    (Done cache, CurrencyConverter.mk (CurrencyConverter.base_currency c) cache (Some fetch_time))
  else (Failed (FetchFailed (status response)), c).

(** [_is_cache_valid] at the time [now]. *)
Definition _is_cache_valid (now : Z) (c : CurrencyConverter.t T) : bool :=
  match CurrencyConverter._cache_timestamp c with
  | None => false
  | Some timestamp =>
      if dict_is_empty (CurrencyConverter._rates_cache c) then false
      else (now - timestamp <? CACHE_DURATION)%Z
  end.

(** [get_rates] *)
Definition get_rates (now : Z) (response : Response T) (fetch_time : Z)
  (c : CurrencyConverter.t T) : Outcome (gmap string T) * CurrencyConverter.t T :=
  if _is_cache_valid now c then (Done (CurrencyConverter._rates_cache c), c)
  else fetch_rates response fetch_time c.

(** Python's [x / y] on two floats. *)
Definition py_truediv (x y : T) : Outcome T :=
  if feq y (of_Z 0) then Failed RateIsZero else Done (fdiv x y).

(** [rates.get(currency, 1.0)] *)
Definition rate_of (rates : gmap string T) (currency : string) : T :=
  default (of_Z 1) (rates !! currency).

(** [convert] *)
Definition convert (now : Z) (response : Response T) (fetch_time : Z)
  (amount : T) (from_currency to_currency : string) (c : CurrencyConverter.t T)
  : Outcome T * CurrencyConverter.t T :=
  if String.eqb from_currency to_currency then (Done amount, c)
  else
    match get_rates now response fetch_time c with
    | (Failed e, c) => (Failed e, c)
    | (Done rates, c) =>
        if String.eqb from_currency (CurrencyConverter.base_currency c) then
          (Done (np_round (fmul amount (rate_of rates to_currency))), c)
        else if String.eqb to_currency (CurrencyConverter.base_currency c) then
          match py_truediv amount (rate_of rates from_currency) with
          | Done q => (Done (np_round q), c)
          | Failed e => (Failed e, c)
          end
        else
          match py_truediv amount (rate_of rates from_currency) with
          | Done base_amount =>
              (Done (np_round (fmul base_amount (rate_of rates to_currency))), c)
          | Failed e => (Failed e, c)
          end
    end.

End Currency.

(** *** Vocabulary of the statements about the rest of the code *)

(** A settlement between two of the ids [participants], in [base_currency],
    of an amount that is not below 0.01. *)
Definition settlement_in {T : Type} {A : Arith T} (base_currency : string)
  (participants : list string) (s : Settlement.t T) : Prop :=
  In (Settlement.from_participant s) participants
  /\ In (Settlement.to_participant s) participants
  /\ Settlement.currency s = base_currency
  /\ flt (Settlement.amount s) lit_0_01 = false.

(** The name [name] is the name of a participant of [g]. *)
Definition name_in_group {T : Type} (g : Group.t T) (name : string) : Prop :=
  exists p, In p (Group.participants g) /\ Participant.name p = name.

(** The balance of everybody before the first expense, [np.round(0.0, 2)]. *)
Definition zero_balance {T : Type} {A : Arith T} : T := np_round (of_Z 0).

(** The line [show_balances] prints for one row of the balance table. *)
Definition balance_line {T : Type} {A : Arith T} (row : BalanceRow.t T) : Printed T :=
  BalanceLine (BalanceRow.name row) (flt (BalanceRow.balance row) (of_Z 0))
    (fabs (BalanceRow.balance row)).

(** No line of [out] reports an added expense. *)
Definition no_expense_added {T : Type} (out : list (Printed T)) : Prop :=
  forall description amount currency, ~ In (AddedExpense description amount currency) out.

(** What the application's state can be: no group, or a group whose expenses
    name participants only. *)
Definition state_ok {T : Type} (st : AppState (T := T)) : Prop :=
  match st with
  | None => True
  | Some g => refs_ok g = true
  end.

(** [str.lower] on strings of ASCII characters, for the examples; the
    theorems hold for every function [lower]. *)
Definition ascii_lower (c : Ascii.ascii) : Ascii.ascii :=
  let n := Ascii.nat_of_ascii c in
  if (65 <=? n)%nat && (n <=? 90)%nat then Ascii.ascii_of_nat (n + 32) else c.

Fixpoint str_lower (s : string) : string :=
  match s with
  | EmptyString => EmptyString
  | String c rest => String (ascii_lower c) (str_lower rest)
  end.

(** A converter that fetched the rate of the euro, 0.51, at time 0. *)
Definition euro_converter : CurrencyConverter.t Qc :=
  CurrencyConverter.mk "BGN" {[ "EUR"%string := Q2Qc (51 # 100) ]} (Some 0%Z).

(** A converter that fetched a rate of one half. *)
Definition half_converter : CurrencyConverter.t Qc :=
  CurrencyConverter.mk "BGN" {[ "XXX"%string := Q2Qc (1 # 2) ]} (Some 0%Z).

(** The rate [convert] works with for the code [currency]: 1 for the base
    currency, whatever the table says, the table's rate for a code it has, and
    1.0 for any other code. *)
Definition effective_rate {T : Type} {A : Arith T} (c : CurrencyConverter.t T)
  (currency : string) : T :=
  if String.eqb currency (CurrencyConverter.base_currency c) then of_Z 1
  else rate_of (CurrencyConverter._rates_cache c) currency.

(** The line [show_expenses] prints for one row of the expense summary. *)
Definition expense_line {T : Type} (row : ExpenseSummaryRow.t T) : Printed T :=
  ExpenseLine (ExpenseSummaryRow.split_method row) (ExpenseSummaryRow.description row)
    (ExpenseSummaryRow.amount row) (ExpenseSummaryRow.paid_by row).

(* ================================================================== *)
(** ** Exact arithmetic on whole cents *)

Section ExactArith.
Local Open Scope Z_scope.

Lemma this_Q2Qc (q : Q) : (Qcanon.this (Q2Qc q) == q)%Q.
Proof. simpl. apply Qred_correct. Qed.



Lemma cents_compare (a b : Z) : Qccompare (cents a) (cents b) = Z.compare a b.
Proof.
  unfold Qccompare, cents. repeat rewrite this_Q2Qc.
  unfold Qcompare; simpl.
  destruct (Z.compare_spec a b) as [H|H|H];
    [apply Z.compare_eq_iff | apply Z.compare_lt_iff | apply Z.compare_gt_iff]; lia.
Qed.



Lemma cents_inj (a b : Z) : cents a = cents b -> a = b.
Proof.
  intros H. apply Z.compare_eq_iff. rewrite <- cents_compare, H.
  unfold Qccompare. apply Qeq_alt. reflexivity.
Qed.

Lemma cents_eqb (a b : Z) : Qc_eq_bool (cents a) (cents b) = (a =? b).
Proof.
  unfold Qc_eq_bool. destruct (Z.eqb_spec a b) as [->|Hne].
  - destruct Qcanon.Qc_eq_dec; congruence.
  - destruct Qcanon.Qc_eq_dec as [e|]; [|reflexivity]. now apply cents_inj in e.
Qed.


Lemma Qrint_comp (p q : Q) : (p == q)%Q -> Qrint p = Qrint q.
Proof.
  intros H. unfold Qrint. rewrite (Qfloor_comp _ _ H).
  assert (E : (p - inject_Z (Qfloor q) ?= 1 # 2)%Q = (q - inject_Z (Qfloor q) ?= 1 # 2)%Q).
  { now rewrite H. }
  now rewrite E.
Qed.


Lemma Qrint_err (q : Q) : (Qabs (inject_Z (Qrint q) - q) <= 1 # 2)%Q.
Proof.
  unfold Qrint.
  pose proof (Qfloor_le q) as Hl. pose proof (Qlt_floor q) as Hu.
  rewrite inject_Z_plus in Hu. change (inject_Z 1) with 1%Q in Hu.
  apply Qabs_Qle_condition.
  destruct (Qcompare_spec (q - inject_Z (Qfloor q)) (1 # 2)) as [E|E|E].
  - destruct (Z.even (Qfloor q));
      [| rewrite inject_Z_plus; change (inject_Z 1) with 1%Q]; lra.
  - lra.
  - rewrite inject_Z_plus; change (inject_Z 1) with 1%Q; lra.
Qed.

(** In exact arithmetic [np.round(x, 2)] is a whole number of cents. *)
Lemma np_round_exact (x : Qc) : np_round x = cents (Qrint (x * 100)).
Proof.
  unfold np_round. cbn [of_Z fdiv rint fmul Exact].
  apply Qc_is_canon.
  unfold cents, Qcdiv, Qcmult, Qcinv.
  rewrite (Qrint_comp (Q2Qc (x * Q2Qc (inject_Z 100))) (x * 100)%Q).
  2:{ repeat rewrite this_Q2Qc. reflexivity. }
  repeat rewrite this_Q2Qc.
  change (inject_Z 100) with 100%Q.
  unfold Qeq, Qmult, Qdiv, Qinv, Qmult; simpl. lia.
Qed.


Lemma np_round_err (x : Qc) : (Qcabs (np_round x - x) <= Q2Qc (1 # 200))%Qc.
Proof.
  rewrite np_round_exact.
  unfold Qcle, Qcabs, Qcminus, Qcplus, Qcopp, cents. cbn [Qcanon.this Q2Qc].
  repeat rewrite Qred_correct.
  pose proof (Qrint_err (x * 100)) as H.
  apply Qabs_Qle_condition in H. apply Qabs_Qle_condition.
  set (r := Qrint (x * 100)) in *.
  assert (E : (r # 100 == inject_Z r * (1 # 100))%Q).
  { unfold Qeq, Qmult; simpl. lia. }
  rewrite E. lra.
Qed.

End ExactArith.

(* ================================================================== *)
(** ** Equal split *)

Section EqualSplit.
Local Open Scope Z_scope.







End EqualSplit.

Section SplitLists.
Local Open Scope Z_scope.

Lemma zip_splits_ids {T : Type} (ps : list string) (amounts : list T) :
  length ps = length amounts ->
  map ExpenseSplit.participant_id (zip_splits ps amounts) = ps.
Proof.
  revert amounts. induction ps as [|p ps IH]; intros [|a amounts] Hlen;
    try discriminate; [reflexivity|].
  cbn. f_equal. apply IH. now injection Hlen.
Qed.


Lemma add_expense_equal_unfold {T : Type} {A : Arith T} desc (total : T) paid_by ps cur cat g :
  add_expense_equal desc total paid_by ps cur cat g =
  match equal_amounts total (length (equal_participants g ps)) with
  | Ret amounts =>
      let e := Expense.mk desc total paid_by cur EQUAL
                 (zip_splits (equal_participants g ps) amounts) false cat in
      (Ret e, Group.append_expense g e)
  | Raise e => (Raise e, g)
  | Timeout => (Timeout, g)
  end.
Proof. reflexivity. Qed.

End SplitLists.



Lemma all_from_spec (k : nat) (c : Z) (f : Z -> bool) :
  all_from k c f = true -> forall x : Z, (c <= x < c + Z.of_nat k)%Z -> f x = true.
Proof.
  revert c. induction k as [|k IH]; intros c H x Hx; [lia|].
  cbn [all_from] in H. apply andb_true_iff in H. destruct H as [Hc Hk].
  destruct (Z.eq_dec x c) as [->|Hne]; [exact Hc|].
  apply (IH (c + 1)%Z Hk). lia.
Qed.

(** Every equal split of 0.01 to 200.00 over 1 to 7 participants, run in
    binary64. *)
Lemma equal_splits_to_200_checked :
  all_from (Z.to_nat 20000) 1
    (fun c => forallb (equal_sum_ok c) [1; 2; 3; 4; 5; 6; 7]%nat) = true.
Proof. vm_compute. reflexivity. Qed.

Lemma equal_sum_ok_to_200 (c : Z) (n : nat) :
  (1 <= c <= 20000)%Z -> (1 <= n <= 7)%nat -> equal_sum_ok c n = true.
Proof.
  intros Hc Hn.
  pose proof (all_from_spec _ _ _ equal_splits_to_200_checked c ltac:(lia)) as H.
  cbn beta in H. rewrite forallb_forall in H. apply H.
  do 8 (destruct n as [|n]; [cbn [In]; first [lia | tauto]|]). lia.
Qed.


(* ================================================================== *)
(** ** The example of the equal split *)




(* ================================================================== *)
(** ** What the allocators raise and append, over any arithmetic *)

Section Allocators.
Context {T : Type} {A : Arith T}.

Lemma equal_amounts_zero (total_amount : T) :
  equal_amounts total_amount 0 = Raise ZeroDivisionError.
Proof. reflexivity. Qed.

Lemma equal_amounts_succ (total_amount : T) (n : nat) :
  exists amounts : list T,
    equal_amounts total_amount (S n) = Ret amounts /\ length amounts = S n.
Proof.
  unfold equal_amounts, py_truediv_int.
  replace (Z.of_nat (S n) =? 0)%Z with false by (symmetry; apply Z.eqb_neq; lia).
  cbn [res_bind].
  destruct (negb _).
  - unfold iadd_first, np_full. cbn [repeat getitem lookup list_lookup res_bind].
    eexists. split; [reflexivity|]. cbn. now rewrite repeat_length.
  - eexists. split; [reflexivity|]. unfold np_full. now rewrite repeat_length.
Qed.

Lemma add_expense_equal_nonempty description (total_amount : T) paid_by participants
      currency category (g : Group.t T) :
  equal_participants g participants <> [] ->
  exists e : Expense.t T,
    add_expense_equal description total_amount paid_by participants currency category g
      = (Ret e, Group.append_expense g e)
    /\ Expense.paid_by e = paid_by
    /\ map ExpenseSplit.participant_id (Expense.splits e) = equal_participants g participants.
Proof.
  intros Hne. rewrite add_expense_equal_unfold.
  destruct (equal_participants g participants) as [|p ps] eqn:E; [congruence|].
  cbn [length].
  destruct (equal_amounts_succ total_amount (length ps)) as (amounts & -> & Hlen).
  eexists. split; [reflexivity|]. split; [reflexivity|].
  cbn [Expense.splits]. apply zip_splits_ids. now rewrite Hlen.
Qed.

Lemma map_fst_percentage_splits (total_amount : T) (percentages : list (string * T)) :
  map ExpenseSplit.participant_id
    (map (fun '(pid, pct) =>
            ExpenseSplit.mk pid (np_round (fmul total_amount (fdiv pct (of_Z 100))))
              (Some pct) None) percentages) = map fst percentages.
Proof. induction percentages as [|[pid pct] l IH]; [reflexivity|]. cbn. now f_equal. Qed.

Lemma shares_splits_ids (total_amount : T) (total_shares : @np_total T)
      (shares : list (string * Z)) (splits : list (ExpenseSplit.t T)) :
  shares_splits total_amount total_shares shares = Ret splits ->
  map ExpenseSplit.participant_id splits = map fst shares.
Proof.
  revert splits. induction shares as [|[pid c] l IH]; intros splits H; cbn [shares_splits] in H.
  - injection H as <-. reflexivity.
  - destruct (share_ratio c total_shares) as [ratio| |]; cbn [res_bind] in H; try discriminate.
    destruct (shares_splits total_amount total_shares l) as [rest| |];
      cbn [res_bind] in H; try discriminate.
    injection H as <-. cbn [map fst ExpenseSplit.participant_id]. f_equal. now apply IH.
Qed.


(** Over a numpy number the division never raises. *)
Lemma shares_splits_numeric (total_amount : T) (total_shares : @np_total T)
      (shares : list (string * Z)) :
  (forall t, total_shares <> total_object t) ->
  exists splits, shares_splits total_amount total_shares shares = Ret splits.
Proof.
  intros Hnum. induction shares as [|[pid c] l [rest IH]]; cbn [shares_splits].
  - now eexists.
  - rewrite IH. destruct total_shares as [t|t|x|t]; cbn [share_ratio res_bind];
      try (now eexists). now destruct (Hnum t).
Qed.

(** Over a Python int the division is Python's. *)
Lemma shares_splits_object (total_amount : T) (t : Z) (shares : list (string * Z)) :
  match shares_splits total_amount (total_object t) shares with
  | Ret _ => t <> 0%Z \/ shares = []
  | Raise e =>
      shares <> []
      /\ (if (t =? 0)%Z then e = ZeroDivisionError else e = OverflowError)
  | Timeout => False
  end.
Proof.
  induction shares as [|[pid c] l IH]; cbn [shares_splits]; [now right|].
  cbn [share_ratio]. unfold py_int_truediv.
  destruct (Z.eqb_spec t 0) as [->|Hne]; cbn [res_bind]; [now split|].
  destruct (int_truediv c t) as [q|]; cbn [res_bind]; [|now split].
  destruct (shares_splits total_amount (total_object t) l) as [rest|e|];
    cbn [res_bind]; [now left| |exact IH].
  destruct IH as [_ IH]. now split.
Qed.

Lemma fold_promote_object (l : list Z) (d : dtype) :
  fold_left (fun d z => promote_types d (int_dtype z)) l d = Object
  <-> d = Object \/ existsb (fun z => negb (fits_64 z)) l = true.
Proof.
  revert d. induction l as [|z l IH]; intros d; cbn [fold_left existsb].
  - split; [now left|]. now intros [H|H].
  - rewrite IH. unfold int_dtype, fits_64.
    destruct (- 2 ^ 63 <=? z)%Z eqn:E1, (z <? 2 ^ 63)%Z eqn:E2, (2 ^ 63 <=? z)%Z eqn:E3,
             (z <? 2 ^ 64)%Z eqn:E4; cbn [andb negb orb];
      try (exfalso; lia);
      destruct d; cbn [promote_types];
      split; intros [H|H]; first [discriminate | now left | now right | (right; exact H)].
Qed.

(** The array is an [object] array exactly when some count does not fit in 64
    bits. *)
Lemma array_dtype_object (l : list Z) :
  array_dtype l = Object <-> existsb (fun z => negb (fits_64 z)) l = true.
Proof.
  destruct l as [|z l]; cbn [array_dtype existsb]; [split; discriminate|].
  rewrite fold_promote_object. unfold int_dtype, fits_64.
  destruct (- 2 ^ 63 <=? z)%Z eqn:E1, (z <? 2 ^ 63)%Z eqn:E2, (2 ^ 63 <=? z)%Z eqn:E3,
           (z <? 2 ^ 64)%Z eqn:E4; cbn [andb negb orb];
    try (exfalso; lia);
    split; intros H;
    first [ reflexivity
          | now left
          | (destruct H as [H|H]; first [discriminate | exact H])
          | (right; exact H) ].
Qed.

Lemma forallb_fits_64 (l : list Z) :
  forallb fits_64 l = negb (existsb (fun z => negb (fits_64 z)) l).
Proof.
  induction l as [|z l IH]; [reflexivity|]. cbn [forallb existsb]. rewrite IH.
  now destruct (fits_64 z).
Qed.

Lemma shares_sum_object (l : list Z) :
  match shares_sum l with
  | total_object t => array_dtype l = Object /\ t = fold_left Z.add l 0%Z
  | _ => array_dtype l <> Object
  end.
Proof. unfold shares_sum. destruct (array_dtype l); first [discriminate | now split]. Qed.

(** Every outcome of [add_expense_shares]. *)
Lemma add_expense_shares_cases description (total_amount : T) paid_by
      (shares : list (string * Z)) currency category (g : Group.t T) :
  match add_expense_shares description total_amount paid_by shares currency category g with
  | (Ret e, g') =>
      g' = Group.append_expense g e
      /\ e = Expense.mk description total_amount paid_by currency SHARES (Expense.splits e)
                false category
      /\ map ExpenseSplit.participant_id (Expense.splits e) = map fst shares
      /\ (array_dtype (map snd shares) = Object ->
          fold_left Z.add (map snd shares) 0%Z <> 0%Z)
  | (Raise x, g') =>
      g' = g
      /\ array_dtype (map snd shares) = Object
      /\ (if (fold_left Z.add (map snd shares) 0 =? 0)%Z
          then x = ZeroDivisionError else x = OverflowError)
  | (Timeout, _) => False
  end.
Proof.
  unfold add_expense_shares.
  pose proof (shares_sum_object (map snd shares)) as Hsum.
  pose proof (shares_splits_numeric total_amount (shares_sum (map snd shares)) shares) as Hnum.
  destruct (shares_sum (map snd shares)) as [t|t|x|t].
  1-3: destruct Hnum as [splits Hs]; [discriminate|];
    rewrite Hs; split; [reflexivity|]; split; [reflexivity|];
    split; [now apply shares_splits_ids in Hs|]; intros H; contradiction.
  clear Hnum.
  destruct Hsum as [Hobj ->].
  pose proof (shares_splits_object total_amount (fold_left Z.add (map snd shares) 0%Z) shares)
    as H.
  destruct (shares_splits total_amount _ shares) as [splits|e|] eqn:Hs; [| |exact H].
  - split; [reflexivity|]. split; [reflexivity|].
    split; [now apply shares_splits_ids in Hs|]. intros _.
    destruct H as [H | Hnil]; [exact H|]. subst shares. discriminate.
  - destruct H as [_ H]. now repeat split.
Qed.

Lemma map_fst_custom_splits (custom_amounts : list (string * T)) :
  map ExpenseSplit.participant_id
    (map (fun '(pid, amt) => ExpenseSplit.mk pid amt None None) custom_amounts)
  = map fst custom_amounts.
Proof. induction custom_amounts as [|[pid c] l IH]; [reflexivity|]. cbn. now f_equal. Qed.

End Allocators.

(** C5.  [add_expense_percentage] raises (Python's [ValueError], the
    validation error of the specification) exactly when the percentages do not
    sum to 100 within [np.isclose]'s tolerance, [add_expense_custom] exactly when
    the amounts do not sum to [total_amount] within it; a call that raises
    leaves the group as it was, and a call that does not appends its expense.
    In binary64, percentages summing to 99.99 or to 100.01 raise and
    percentages summing to 100.00 succeed. *)
Theorem validation_raises_before_append :
  (forall (T : Type) (A : Arith T) (g : Group.t T) description (total_amount : T)
          paid_by currency category,
      (forall percentages : list (string * T),
          if np_isclose (np_sum (map snd percentages)) (of_Z 100)
          then exists e,
              add_expense_percentage description total_amount paid_by percentages
                currency category g = (Ret e, Group.append_expense g e)
          else add_expense_percentage description total_amount paid_by percentages
                 currency category g
               = (Raise (ValueError "Percentages must sum to 100"), g))
      /\ (forall custom_amounts : list (string * T),
          if np_isclose (np_sum (map snd custom_amounts)) total_amount
          then exists e,
              add_expense_custom description total_amount paid_by custom_amounts
                currency category g = (Ret e, Group.append_expense g e)
          else add_expense_custom description total_amount paid_by custom_amounts
                 currency category g
               = (Raise (ValueError "Custom amounts must sum to total"), g)))
  /\ np_isclose (np_sum [50; 49.99]%float) (of_Z 100) = false
  /\ np_isclose (np_sum [50; 50.01]%float) (of_Z 100) = false
  /\ np_isclose (np_sum [50; 30; 20]%float) (of_Z 100) = true.
Proof.
  split.
  - intros T A g description total_amount paid_by currency category. split.
    + intros percentages. unfold add_expense_percentage.
      destruct (np_isclose _ _); cbn [negb]; [eexists|]; reflexivity.
    + intros custom_amounts. unfold add_expense_custom.
      destruct (np_isclose _ _); cbn [negb]; [eexists|]; reflexivity.
  - repeat split; vm_compute; reflexivity.
Qed.

(** C7.  Two calls of [calculate_optimal_settlements] in a row give the same
    outcome (the same sequence of settlements), and the group after each call
    is the group before it: expenses and participants are untouched, and no
    balance is stored ([get_balances] leaves the group as it was, too). *)
Theorem calculate_optimal_settlements_idempotent :
  forall (T : Type) (A : Arith T) (fuel : nat) (g : Group.t T),
    let '(first, g1) := calculate_optimal_settlements fuel g in
    let '(second, g2) := calculate_optimal_settlements fuel g1 in
    first = second /\ g1 = g /\ g2 = g /\ snd (get_balances g) = g.
Proof.
  intros T A fuel g.
  assert (H : forall h : Group.t T, snd (calculate_optimal_settlements fuel h) = h).
  { intros h. unfold calculate_optimal_settlements, get_balances. reflexivity. }
  destruct (calculate_optimal_settlements fuel g) as [first g1] eqn:E1.
  pose proof (H g) as H1. rewrite E1 in H1. cbn in H1. subst g1.
  rewrite E1. repeat split; reflexivity.
Qed.




(** Share counts that do not fit in 64 bits, in binary64: counts [2^64] and
    [-2^64] sum to 0 and the call raises [ZeroDivisionError]; counts [2^1100]
    and [1 - 2^1100] sum to 1 and the call raises [OverflowError]; counts
    [2^64] and [2^64] give two halves. *)
Lemma add_expense_shares_python_ints :
  add_expense_shares "Pizza" 40%float "A"
    [("A", (2 ^ 64)%Z); ("B", (- 2 ^ 64)%Z)] "BGN" None trio
  = (Raise ZeroDivisionError, trio)
  /\ add_expense_shares "Pizza" 40%float "A"
       [("A", (2 ^ 1100)%Z); ("B", (1 - 2 ^ 1100)%Z)] "BGN" None trio
     = (Raise OverflowError, trio)
  /\ (exists e : Expense.t float,
        add_expense_shares "Pizza" 40%float "A"
          [("A", (2 ^ 64)%Z); ("B", (2 ^ 64)%Z)] "BGN" None trio
        = (Ret e, Group.append_expense trio e)
        /\ map ExpenseSplit.amount (Expense.splits e) = [20%float; 20%float]).
Proof.
  split; [vm_compute; reflexivity|]. split; [vm_compute; reflexivity|].
  eexists. split; vm_compute; reflexivity.
Qed.

(* ================================================================== *)
(** ** Which ids [get_balances] accepts *)

Section GetBalances.
Context {T : Type} {A : Arith T}.

Lemma fold_zero_lookup (ps : list Participant.t) (d : gmap string T) (k : string) :
  fold_left (fun d p => <[Participant.id p := of_Z 0]> d) ps d !! k
  = if known_id (map Participant.id ps) k then Some (of_Z 0) else d !! k.
Proof.
  revert d. induction ps as [|p ps IH]; intros d; [reflexivity|].
  cbn [fold_left map known_id existsb]. rewrite IH.
  fold (known_id (map Participant.id ps) k).
  destruct (known_id (map Participant.id ps) k); [now rewrite orb_true_r|].
  rewrite orb_false_r. destruct (String.eqb_spec k (Participant.id p)) as [->|Hne].
  - apply lookup_insert_eq.
  - apply lookup_insert_ne. congruence.
Qed.

Lemma zero_balances_lookup (ps : list Participant.t) (k : string) :
  zero_balances ps !! k
  = if known_id (map Participant.id ps) k then Some (of_Z 0) else None.
Proof. unfold zero_balances. rewrite fold_zero_lookup. now rewrite lookup_empty. Qed.

Lemma zero_balances_keys (ps : list Participant.t) :
  keys_are (map Participant.id ps) (zero_balances ps).
Proof.
  intros k. rewrite zero_balances_lookup.
  destruct (known_id _ k); split; intros H; first [done | now destruct H].
Qed.

Lemma keys_are_insert (ids : list string) (d : gmap string T) (k : string) (v : T) :
  keys_are ids d -> is_Some (d !! k) -> keys_are ids (<[k := v]> d).
Proof.
  intros Hk Hin j. destruct (decide (k = j)) as [->|Hne].
  - rewrite lookup_insert_eq. split; [intros _; now apply Hk | intros _; eauto].
  - rewrite lookup_insert_ne by exact Hne. apply Hk.
Qed.

Lemma keys_are_lookup (ids : list string) (d : gmap string T) (k : string) :
  keys_are ids d ->
  if known_id ids k then exists v, d !! k = Some v else d !! k = None.
Proof.
  intros Hk. destruct (known_id ids k) eqn:E.
  - apply Hk in E. destruct E as [v E]. now exists v.
  - destruct (d !! k) as [v|] eqn:E'; [|reflexivity].
    assert (H : is_Some (d !! k)) by (rewrite E'; eauto).
    apply Hk in H. congruence.
Qed.

Lemma debit_splits_keys (ids : list string) (splits : list (ExpenseSplit.t T))
      (d : gmap string T) :
  keys_are ids d ->
  if forallb (fun s => known_id ids (ExpenseSplit.participant_id s)) splits
  then exists d', debit_splits d splits = Ret d' /\ keys_are ids d'
  else exists k, debit_splits d splits = Raise (KeyError k) /\ known_id ids k = false.
Proof.
  revert d. induction splits as [|s splits IH]; intros d Hk.
  - cbn. now exists d.
  - cbn [forallb debit_splits]. unfold dict_isub, dict_getitem.
    pose proof (keys_are_lookup ids d (ExpenseSplit.participant_id s) Hk) as Hl.
    destruct (known_id ids (ExpenseSplit.participant_id s)) eqn:E.
    + destruct Hl as [v Hv]. rewrite Hv. cbn [res_bind andb].
      apply IH. apply keys_are_insert; [exact Hk|]. rewrite Hv; eauto.
    + rewrite Hl. cbn [res_bind andb]. now exists (ExpenseSplit.participant_id s).
Qed.

Lemma aggregate_keys (ids : list string) (expenses : list (Expense.t T))
      (d : gmap string T) :
  keys_are ids d ->
  if forallb (expense_refs_ok ids) expenses
  then exists d', aggregate d expenses = Ret d' /\ keys_are ids d'
  else exists k, aggregate d expenses = Raise (KeyError k) /\ known_id ids k = false.
Proof.
  revert d. induction expenses as [|e expenses IH]; intros d Hk.
  - cbn. now exists d.
  - cbn [forallb aggregate]. unfold expense_refs_ok at 1, dict_iadd, dict_getitem.
    pose proof (keys_are_lookup ids d (Expense.paid_by e) Hk) as Hl.
    destruct (known_id ids (Expense.paid_by e)) eqn:E.
    + destruct Hl as [v Hv]. rewrite Hv. cbn [res_bind andb].
      assert (Hk1 : keys_are ids (<[Expense.paid_by e := fadd v (Expense.total_amount e)]> d)).
      { apply keys_are_insert; [exact Hk|]. rewrite Hv; eauto. }
      pose proof (debit_splits_keys ids (Expense.splits e) _ Hk1) as Hd.
      destruct (forallb _ (Expense.splits e)).
      * destruct Hd as (d1 & -> & Hk2). cbn [res_bind andb]. now apply IH.
      * destruct Hd as (k & -> & Hk2). cbn [res_bind andb]. now exists k.
    + rewrite Hl. cbn [res_bind andb]. now exists (Expense.paid_by e).
Qed.

Lemma balance_rows_ok (d : gmap string T) (ps : list Participant.t) :
  (forall p, In p ps -> is_Some (d !! Participant.id p)) ->
  balance_rows d ps = Ret (rows_of d ps).
Proof.
  induction ps as [|p ps IH]; intros H; [reflexivity|].
  cbn [balance_rows rows_of map]. unfold dict_getitem.
  destruct (H p (or_introl eq_refl)) as [v Hv]. rewrite Hv. cbn [res_bind default].
  rewrite IH by (intros q Hq; apply H; now right). reflexivity.
Qed.

Lemma known_id_in (ps : list Participant.t) (p : Participant.t) :
  In p ps -> known_id (map Participant.id ps) (Participant.id p) = true.
Proof.
  intros H. unfold known_id. apply existsb_exists. exists (Participant.id p).
  split; [now apply in_map | apply String.eqb_refl].
Qed.

Lemma get_balances_cases (g : Group.t T) :
  if refs_ok g
  then exists d,
      aggregate (zero_balances (Group.participants g)) (Group.expenses g) = Ret d
      /\ keys_are (map Participant.id (Group.participants g)) d
      /\ get_balances g = (Ret (rows_of d (Group.participants g)), g)
  else exists k,
      get_balances g = (Raise (KeyError k), g)
      /\ known_id (map Participant.id (Group.participants g)) k = false.
Proof.
  unfold refs_ok, get_balances.
  pose proof (aggregate_keys _ (Group.expenses g) _ (zero_balances_keys (Group.participants g)))
    as H.
  destruct (forallb _ (Group.expenses g)).
  - destruct H as (d & Hd & Hk). exists d. split; [exact Hd|]. split; [exact Hk|].
    rewrite Hd. cbn [res_bind]. rewrite balance_rows_ok; [reflexivity|].
    intros p Hp. apply Hk. now apply known_id_in.
  - destruct H as (k & Hd & Hk). exists k. rewrite Hd. now split.
Qed.

End GetBalances.

(** C9.  [get_balances] returns a balance table, one row per participant, when
    every id referred to by an expense (its payer, the participant of each
    split) is the id of a participant of the group; otherwise it raises
    [KeyError] for an id that no participant has.  It never changes the
    group. *)
Theorem get_balances_partial :
  forall (T : Type) (A : Arith T) (g : Group.t T),
    if refs_ok g
    then exists rows,
        get_balances g = (Ret rows, g)
        /\ map BalanceRow.participant_id rows = map Participant.id (Group.participants g)
    else exists k,
        get_balances g = (Raise (KeyError k), g)
        /\ known_id (map Participant.id (Group.participants g)) k = false.
Proof.
  intros T A g. pose proof (get_balances_cases g) as H.
  destruct (refs_ok g); [|exact H].
  destruct H as (d & _ & _ & H). eexists. split; [exact H|].
  unfold rows_of. rewrite map_map. reflexivity.
Qed.



(* ================================================================== *)
(** ** Balances in exact arithmetic *)

Section ExactBalances.

Lemma fmap_ext_eq (f h : Qc -> Qc) (o : option Qc) :
  (forall v, f v = h v) -> f <$> o = h <$> o.
Proof. intros H. destruct o; cbn; [now rewrite H | reflexivity]. Qed.

Lemma debit_splits_value (splits : list (ExpenseSplit.t Qc)) (d d' : gmap string Qc) :
  debit_splits d splits = Ret d' ->
  forall k, d' !! k = (fun v => v - debits k splits)%Qc <$> d !! k.
Proof.
  revert d. induction splits as [|s splits IH]; intros d H k.
  - cbn in H. injection H as <-. cbn [debits]. destruct (d !! k); cbn; [f_equal; ring|done].
  - cbn [debit_splits] in H. unfold dict_isub, dict_getitem in H.
    destruct (d !! ExpenseSplit.participant_id s) as [v|] eqn:Hv; [|discriminate H].
    cbn [res_bind] in H. rewrite (IH _ H k). cbn [debits fsub Exact].
    destruct (String.eqb_spec (ExpenseSplit.participant_id s) k) as [<-|Hne].
    + rewrite lookup_insert_eq, Hv. cbn. f_equal. ring.
    + rewrite lookup_insert_ne by exact Hne. apply fmap_ext_eq. intros w. ring.
Qed.

Lemma aggregate_value (expenses : list (Expense.t Qc)) (d d' : gmap string Qc) :
  aggregate d expenses = Ret d' ->
  forall k, d' !! k = (fun v => v + net k expenses)%Qc <$> d !! k.
Proof.
  revert d. induction expenses as [|e expenses IH]; intros d H k.
  - cbn in H. injection H as <-. cbn [net]. destruct (d !! k); cbn; [f_equal; ring|done].
  - cbn [aggregate] in H. unfold dict_iadd, dict_getitem in H.
    destruct (d !! Expense.paid_by e) as [v|] eqn:Hv; [|discriminate H].
    cbn [res_bind] in H.
    destruct (debit_splits _ (Expense.splits e)) as [d1| |] eqn:Hd; try discriminate H.
    cbn [res_bind] in H. rewrite (IH _ H k), (debit_splits_value _ _ _ Hd k).
    cbn [net fadd Exact]. unfold credit.
    destruct (String.eqb_spec (Expense.paid_by e) k) as [<-|Hne].
    + rewrite lookup_insert_eq, Hv. cbn. f_equal. ring.
    + rewrite lookup_insert_ne by exact Hne. rewrite <- option_fmap_compose.
      apply fmap_ext_eq. intros w. cbn. ring.
Qed.

Lemma net_permutation (k : string) (es es' : list (Expense.t Qc)) :
  Permutation es es' -> net k es = net k es'.
Proof.
  induction 1 as [|e l l' _ IH|e1 e2 l|l1 l2 l3 _ IH1 _ IH2]; cbn [net].
  - reflexivity.
  - now rewrite IH.
  - ring.
  - now rewrite IH1.
Qed.

Lemma forallb_permutation {X : Type} (f : X -> bool) (l l' : list X) :
  Permutation l l' -> forallb f l = forallb f l'.
Proof.
  induction 1 as [|x l l' _ IH|x y l|l1 l2 l3 _ IH1 _ IH2]; cbn [forallb].
  - reflexivity.
  - now rewrite IH.
  - now rewrite !andb_assoc, (andb_comm (f y)).
  - now rewrite IH1.
Qed.

End ExactBalances.

(** C6 (as amended).  In exact arithmetic, permuting the group's expense
    sequence changes no participant's balance: [get_balances] returns the same
    table, and when it raises [KeyError] on one order it raises [KeyError] on
    the other. *)
Theorem get_balances_permutation :
  forall (g : Group.t Qc) (expenses' : list (Expense.t Qc)),
    Permutation (Group.expenses g) expenses' ->
    match fst (get_balances g), fst (get_balances (with_expenses g expenses')) with
    | Ret rows, Ret rows' => rows = rows'
    | Raise (KeyError _), Raise (KeyError _) => True
    | _, _ => False
    end.
Proof.
  intros g es' Hperm.
  pose proof (get_balances_cases g) as H.
  pose proof (get_balances_cases (with_expenses g es')) as H'.
  assert (E : refs_ok (with_expenses g es') = refs_ok g).
  { unfold refs_ok. cbn [with_expenses Group.participants Group.expenses].
    symmetry. now apply forallb_permutation. }
  rewrite E in H'. destruct (refs_ok g).
  - destruct H as (d & Hd & Hk & ->). destruct H' as (d' & Hd' & Hk' & ->).
    cbn [fst with_expenses Group.participants Group.expenses] in *.
    f_equal. apply map_eq. intros k.
    rewrite (aggregate_value _ _ _ Hd k), (aggregate_value _ _ _ Hd' k).
    now rewrite (net_permutation k _ _ Hperm).
  - destruct H as (k & -> & _). destruct H' as (k' & -> & _). exact I.
Qed.

(* ================================================================== *)
(** ** Conservation of balances in exact arithmetic *)

Section Conservation.
Local Open Scope Qc_scope.








Lemma known_id_cons (i : string) (ids : list string) (k : string) :
  known_id (i :: ids) k = String.eqb k i || known_id ids k.
Proof. reflexivity. Qed.

Lemma known_id_true (ids : list string) (k : string) :
  known_id ids k = true <-> In k ids.
Proof.
  unfold known_id. rewrite existsb_exists. split.
  - intros (x & Hx & E). apply String.eqb_eq in E. now subst.
  - intros H. exists k. split; [exact H | apply String.eqb_refl].
Qed.








End Conservation.

Section EqualCalls.




End EqualCalls.


(* ================================================================== *)
(** ** Conservation and order: examples *)




(** Conservation also needs the other conditions of the amended claim.  A
    custom split passes the sum check within a relative tolerance: 100000.00
    split as 50000.25 and 50000.25 is accepted and leaves balances that sum to
    -0.50.  An equal split of a total below a cent debits nothing: four times
    0.005 paid by A for B leave A at 0.02 and B at 0.00. *)
Lemma custom_and_subcent_splits_drift :
  balances_of
    (fst (get_balances
            (snd (add_expense_custom "Car" 100000%float "A"
                    [("A", 50000.25%float); ("B", 50000.25%float)] "BGN" None pair_group))))
  = [("A", 49999.75%float); ("B", (-50000.25)%float)]
  /\ (let tip := add_expense_equal "Tip" 0.005%float "A" (Some ["B"]) "BGN" None in
      balances_of (fst (get_balances (snd (tip (snd (tip (snd (tip (snd (tip pair_group))))))))))
      = [("A", 0.02%float); ("B", 0%float)]).
Proof. split; vm_compute; reflexivity. Qed.

(** The trip's expenses in another order give the same balances. *)
Lemma get_balances_permutation_witness :
  exists rows : list (BalanceRow.t Qc),
    fst (get_balances trip) = Ret rows
    /\ fst (get_balances (with_expenses trip (rev (Group.expenses trip)))) = Ret rows.
Proof.
  pose proof (get_balances_permutation trip (rev (Group.expenses trip))
                (Permutation_rev (Group.expenses trip))) as H.
  destruct (fst (get_balances trip)) as [rows|e|] eqn:E.
  - exists rows. split; [reflexivity|].
    destruct (fst (get_balances (with_expenses trip (rev (Group.expenses trip)))))
      as [rows'|e'|]; [now subst rows' | destruct H | destruct H].
  - vm_compute in E. discriminate E.
  - vm_compute in E. discriminate E.
Defined.

(** C6 fails in binary64, where addition loses low-order digits.  A lends
    1e17 to B, A pays 1.00 for B, B pays 1e17 back.  In this order A's
    balance is computed as (1e17 + 1) - 1e17 = 0 and nobody owes anything; with
    the last two expenses exchanged it is (1e17 - 1e17) + 1 = 1 and B owes
    1.00. *)
Lemma get_balances_order_matters_in_binary64 :
  (let '(r1, g1) := add_expense_custom "Loan" 1e17%float "A" [("B", 1e17%float)] "BGN" None
                      pair_group in
   let '(r2, g2) := add_expense_custom "Coffee" 1%float "A" [("B", 1%float)] "BGN" None g1 in
   let '(r3, g3) := add_expense_custom "Refund" 1e17%float "B" [("A", 1e17%float)] "BGN" None
                      g2 in
   Group.expenses g3 = [loan; coffee; refund])
  /\ Permutation [loan; coffee; refund] [loan; refund; coffee]
  /\ balances_of (fst (get_balances (with_expenses pair_group [loan; coffee; refund])))
     = [("A", 0%float); ("B", 0%float)]
  /\ balances_of (fst (get_balances (with_expenses pair_group [loan; refund; coffee])))
     = [("A", 1%float); ("B", (-1)%float)].
Proof.
  split; [vm_compute; reflexivity|].
  split; [apply perm_skip, perm_swap|].
  split; vm_compute; reflexivity.
Qed.

(* ================================================================== *)
(** ** The settlement loop on whole cents *)

Section CentVectors.
Local Open Scope Z_scope.


















End CentVectors.

Section CentStep.
Local Open Scope Z_scope.





End CentStep.

Section CentLoop.
Local Open Scope Z_scope.






End CentLoop.

Section SettlementTheorems.
Local Open Scope Z_scope.




End SettlementTheorems.






(** Why the sum must be zero: on the single balance 0.01 the loop picks the
    same participant as creditor and debtor, emits a settlement of 0.01 from A
    to A, leaves the balance at 0.01, and never ends. *)
Lemma settle_loop_single_cent_diverges (fuel : nat) (acc : list (Settlement.t float)) :
  settle_loop fuel "BGN" ["A"] [0.01%float] acc = Timeout.
Proof.
  revert acc. induction fuel as [|fuel IH]; intros acc; [reflexivity|].
  cbn [settle_loop].
  replace (settle_step [0.01%float]) with (Ret (Some (0%nat, 0%nat, 0.01%float, [0.01%float])))
    by (vm_compute; reflexivity).
  cbn [res_bind getitem lookup list_lookup]. apply IH.
Qed.

(* ================================================================== *)
(** ** The scenarios of the specification, in binary64 *)

(** Shares 2, 1, 1 of 40.00 are 20.00, 10.00 and 10.00.  A pays 90.00 split
    equally among A, B and C: the balances are 60.00, -30.00 and -30.00, and
    the plan is B pays A 30.00, C pays A 30.00.  A custom split of 50, 30 and
    20 with declared total 90 raises. *)
Lemma specification_scenarios :
  (exists e,
      fst (add_expense_shares "Pizza" 40%float "B" [("A", 2%Z); ("B", 1%Z); ("C", 1%Z)]
             "BGN" None trio) = Ret e
      /\ map ExpenseSplit.amount (Expense.splits e) = [20; 10; 10]%float)
  /\ (let g := snd (add_expense_equal "Dinner" 90%float "A" None "BGN" None trio) in
      balances_of (fst (get_balances g))
        = [("A", 60%float); ("B", (-30)%float); ("C", (-30)%float)]
      /\ fst (calculate_optimal_settlements 3 g)
         = Ret [Settlement.mk "B" "A" 30%float "BGN"; Settlement.mk "C" "A" 30%float "BGN"])
  /\ fst (add_expense_custom "Dinner" 90%float "A"
            [("A", 50%float); ("B", 30%float); ("C", 20%float)] "BGN" None trio)
     = Raise (ValueError "Custom amounts must sum to total").
Proof.
  split; [eexists; split; vm_compute; reflexivity|].
  split; [split; vm_compute; reflexivity|]. vm_compute. reflexivity.
Qed.

(* ================================================================== *)
(** ** Participants of a group ([src/models.py]) *)

Section Participants.
Context {T : Type}.

Lemma find_app_cases {X : Type} (f : X -> bool) (l l' : list X) :
  List.find f (l ++ l') = match List.find f l with Some x => Some x | None => List.find f l' end.
Proof.
  induction l as [|x l IH]; [reflexivity|]. cbn [app List.find].
  destruct (f x); [reflexivity|exact IH].
Qed.

Lemma get_participant_by_id_known (g : Group.t T) (i : string) :
  known_id (map Participant.id (Group.participants g)) i = true ->
  exists p, Group.get_participant_by_id g i = Some p.
Proof.
  unfold Group.get_participant_by_id. induction (Group.participants g) as [|q ps IH].
  - discriminate.
  - cbn [map List.find]. rewrite known_id_cons. rewrite String.eqb_sym.
    destruct (String.eqb (Participant.id q) i); [eauto|]. exact IH.
Qed.

Lemma get_participant_by_id_unknown (g : Group.t T) (i : string) :
  known_id (map Participant.id (Group.participants g)) i = false ->
  Group.get_participant_by_id g i = None.
Proof.
  unfold Group.get_participant_by_id. induction (Group.participants g) as [|q ps IH].
  - reflexivity.
  - cbn [map List.find]. rewrite known_id_cons. rewrite String.eqb_sym.
    destruct (String.eqb (Participant.id q) i); [discriminate|]. exact IH.
Qed.

End Participants.

(** X1.  [get_participant_by_id] returns the first participant of the group
    that has the id: a participant of the group with that id before whom no
    participant has it; and it returns [None] exactly when no participant has
    the id. *)
Theorem get_participant_by_id_first :
  forall (T : Type) (g : Group.t T) (participant_id : string),
    match Group.get_participant_by_id g participant_id with
    | Some p =>
        Participant.id p = participant_id
        /\ exists before after,
            Group.participants g = before ++ p :: after
            /\ known_id (map Participant.id before) participant_id = false
    | None => known_id (map Participant.id (Group.participants g)) participant_id = false
    end.
Proof.
  intros T g i. unfold Group.get_participant_by_id.
  induction (Group.participants g) as [|q ps IH]; [reflexivity|].
  cbn [List.find map]. rewrite known_id_cons, (String.eqb_sym i).
  destruct (String.eqb_spec (Participant.id q) i) as [E|E]; cbn [orb].
  - split; [exact E|]. exists [], ps. now split.
  - destruct (List.find _ ps) as [p|].
    + destruct IH as (Hid & before & after & Hps & Hk). split; [exact Hid|].
      exists (q :: before), after. split; [now rewrite Hps|].
      cbn [map]. rewrite known_id_cons, (String.eqb_sym i).
      destruct (String.eqb_spec (Participant.id q) i); [contradiction|exact Hk].
    + exact IH.
Qed.

(** X2.  After [add_participant], looking up the new participant's id returns
    the new participant only if no earlier participant has the same id (the
    id is the first 8 characters of a [uuid4], which can repeat); otherwise it
    still returns the earlier one.  Every other id is looked up as before, and
    the expenses are untouched. *)
Theorem add_participant_lookup :
  forall (T : Type) (g : Group.t T) (name : string) (email : option string) (uuid : string),
    let p := fst (Group.add_participant g name email uuid) in
    let g' := snd (Group.add_participant g name email uuid) in
    p = Participant.mk name uuid email
    /\ Group.get_participant_by_id g' uuid
       = Some (match Group.get_participant_by_id g uuid with Some q => q | None => p end)
    /\ (forall i, i <> uuid ->
          Group.get_participant_by_id g' i = Group.get_participant_by_id g i)
    /\ Group.expenses g' = Group.expenses g
    /\ Group.participants g' = Group.participants g ++ [p].
Proof.
  intros T g name email uuid p g'. split; [reflexivity|].
  unfold g', p, Group.add_participant, Group.get_participant_by_id.
  cbn [fst snd Group.participants Group.expenses].
  split; [|split; [|split; reflexivity]].
  - rewrite find_app_cases. destruct (List.find _ (Group.participants g)); [reflexivity|].
    cbn [List.find Participant.id]. now rewrite String.eqb_refl.
  - intros i Hi. rewrite find_app_cases.
    destruct (List.find _ (Group.participants g)); [reflexivity|].
    cbn [List.find Participant.id].
    destruct (String.eqb_spec uuid i); [congruence|reflexivity].
Qed.

(** X3.  [get_participant_by_name] ignores case (it compares lower-cased names)
    and names are not unique: a name that already found a participant finds
    the same participant after any [add_participant], so a later participant
    with an equal name is never found by name; a name that found nobody finds
    the new participant exactly when the lower-cased names agree. *)
Theorem get_participant_by_name_shadowing :
  forall (T : Type) (lower : string -> string) (g : Group.t T)
         (name : string) (email : option string) (uuid : string) (query : string),
    let p := fst (Group.add_participant g name email uuid) in
    let g' := snd (Group.add_participant g name email uuid) in
    (forall query', lower query' = lower query ->
        Group.get_participant_by_name lower g query'
        = Group.get_participant_by_name lower g query)
    /\ Group.get_participant_by_name lower g' query
       = match Group.get_participant_by_name lower g query with
         | Some q => Some q
         | None => if String.eqb (lower name) (lower query) then Some p else None
         end.
Proof.
  intros T lower g name email uuid query p g'. split.
  - intros query' E. unfold Group.get_participant_by_name. now rewrite E.
  - unfold g', p, Group.add_participant, Group.get_participant_by_name.
    cbn [fst snd Group.participants]. rewrite find_app_cases.
    destruct (List.find _ (Group.participants g)); [reflexivity|].
    cbn [List.find Participant.name]. now destruct (String.eqb _ _).
Qed.

(* ================================================================== *)
(** ** The expense summary *)

Section Summary.
Context {T : Type}.

Lemma get_expense_summary_rows (g : Group.t T) :
  get_expense_summary g = (Ret (map (expense_summary_row g) (Group.expenses g)), g).
Proof. unfold get_expense_summary. now destruct (Group.expenses g). Qed.

Lemma expense_summary_row_append (g : Group.t T) (e exp : Expense.t T) :
  expense_summary_row (Group.append_expense g e) exp = expense_summary_row g exp.
Proof. reflexivity. Qed.

End Summary.

(** X4.  Appending an expense (what every allocator does when it returns)
    adds one row at the end of the expense summary and changes no earlier
    row.  The new row shows the expense's description, total, currency and
    split method, and as payer the name of the first participant with the
    payer's id, or the id itself when no participant has it: unlike
    [get_balances], the summary does not raise for an unknown payer. *)
Theorem get_expense_summary_append :
  forall (T : Type) (g : Group.t T) (e : Expense.t T),
  exists rows,
    get_expense_summary g = (Ret rows, g)
    /\ length rows = length (Group.expenses g)
    /\ get_expense_summary (Group.append_expense g e)
       = (Ret (rows ++ [expense_summary_row g e]), Group.append_expense g e)
    /\ ExpenseSummaryRow.paid_by (expense_summary_row g e)
       = match Group.get_participant_by_id g (Expense.paid_by e) with
         | Some p => Participant.name p
         | None => Expense.paid_by e
         end.
Proof.
  intros T g e. exists (map (expense_summary_row g) (Group.expenses g)).
  split; [apply get_expense_summary_rows|]. split; [apply length_map|]. split.
  - rewrite get_expense_summary_rows. cbn [Group.append_expense Group.expenses].
    rewrite map_app. reflexivity.
  - reflexivity.
Qed.

(* ================================================================== *)
(** ** [calculate_min_transactions] *)

(** X5.  [calculate_min_transactions] is never negative and never more than
    one less than the number of balances; it is 0 for an empty vector and for a
    single balance, and it does not depend on the order of the balances. *)
Theorem calculate_min_transactions_bounds :
  forall (T : Type) (A : Arith T) (balances : list T),
    (0 <= calculate_min_transactions balances
     <= Z.max 0 (Z.of_nat (length balances) - 1))%Z
    /\ (forall b : T, calculate_min_transactions [b] = 0%Z)
    /\ (forall balances', Permutation balances balances' ->
          calculate_min_transactions balances' = calculate_min_transactions balances).
Proof.
  intros T A balances. unfold calculate_min_transactions. split; [|split].
  - pose proof (filter_length_le (fun b => flt lit_0_01 (fabs b)) balances). lia.
  - intros b. cbn [List.filter]. destruct (flt _ _); reflexivity.
  - intros balances' Hp. f_equal. f_equal. f_equal.
    induction Hp as [|x l l' _ IH|x y l|l1 l2 l3 _ IH1 _ IH2]; cbn [List.filter].
    + reflexivity.
    + destruct (flt _ _); cbn [length]; now rewrite IH.
    + destruct (flt lit_0_01 (fabs x)), (flt lit_0_01 (fabs y)); reflexivity.
    + now rewrite IH2.
Qed.

(* ================================================================== *)
(** ** The settlement loop, for every arithmetic *)

Section LoopSafety.
Context {T : Type} {A : Arith T}.

Lemma argmax_from_lt (l : list T) (mp : T) (max_ind i : nat) :
  (max_ind < i)%nat -> (argmax_from mp max_ind i l < i + length l)%nat.
Proof.
  revert mp max_ind i. induction l as [|x l IH]; intros mp m i Hm; cbn [argmax_from length].
  - lia.
  - destruct (negb (fle x mp)).
    + destruct (is_nan x); [lia|]. specialize (IH x i (S i)). lia.
    + specialize (IH mp m (S i)). lia.
Qed.

Lemma argmin_from_lt (l : list T) (mp : T) (min_ind i : nat) :
  (min_ind < i)%nat -> (argmin_from mp min_ind i l < i + length l)%nat.
Proof.
  revert mp min_ind i. induction l as [|x l IH]; intros mp m i Hm; cbn [argmin_from length].
  - lia.
  - destruct (negb (fle mp x)).
    + destruct (is_nan x); [lia|]. specialize (IH x i (S i)). lia.
    + specialize (IH mp m (S i)). lia.
Qed.

Lemma np_argmax_lt (x : T) (l : list T) :
  exists i, np_argmax (x :: l) = Ret i /\ (i < length (x :: l))%nat.
Proof.
  cbn [np_argmax length]. eexists. split; [reflexivity|].
  destruct (is_nan x); [lia|]. pose proof (argmax_from_lt l x 0 1). lia.
Qed.

Lemma np_argmin_lt (x : T) (l : list T) :
  exists i, np_argmin (x :: l) = Ret i /\ (i < length (x :: l))%nat.
Proof.
  cbn [np_argmin length]. eexists. split; [reflexivity|].
  destruct (is_nan x); [lia|]. pose proof (argmin_from_lt l x 0 1). lia.
Qed.

Lemma getitem_lt {X : Type} (l : list X) (i : nat) :
  (i < length l)%nat -> exists x, getitem l i = Ret x /\ l !! i = Some x.
Proof.
  intros Hi. unfold getitem. destruct (lookup_lt_is_Some_2 l i Hi) as [x Hx].
  rewrite Hx. eauto.
Qed.

(** One pass of the loop over a vector that is not empty never raises, and a
    pass that transfers does so between two positions of the vector, with an
    amount that is not below 0.01. *)
Lemma settle_step_safe (balances : list T) :
  balances <> [] ->
  settle_step balances = Ret None
  \/ exists max_debit_idx max_credit_idx transfer_amount balances',
      settle_step balances
      = Ret (Some (max_debit_idx, max_credit_idx, transfer_amount, balances'))
      /\ (max_debit_idx < length balances)%nat
      /\ (max_credit_idx < length balances)%nat
      /\ length balances' = length balances
      /\ flt transfer_amount lit_0_01 = false.
Proof.
  destruct balances as [|x l]; [congruence|]. intros _.
  destruct (np_argmax_lt x l) as (ci & Hci & Hcl).
  destruct (np_argmin_lt x l) as (di & Hdi & Hdl).
  unfold settle_step. rewrite Hci, Hdi. cbn [res_bind].
  destruct (getitem_lt _ _ Hcl) as (c & Hc & _).
  destruct (getitem_lt _ _ Hdl) as (d & Hd & _).
  rewrite Hc, Hd. cbn [res_bind].
  destruct (flt c lit_0_01 && flt (fabs d) lit_0_01); [now left|].
  destruct (flt (np_round _) lit_0_01) eqn:Ht; [now left|].
  right.
  assert (Hdl' : (di < length (<[ci := fsub c (np_round (py_min c (fabs d)))]> (x :: l)))%nat)
    by now rewrite length_insert.
  destruct (getitem_lt _ _ Hdl') as (d' & Hd' & _). rewrite Hd'. cbn [res_bind].
  do 4 eexists. split; [reflexivity|].
  split; [exact Hdl|]. split; [exact Hcl|]. split; [|exact Ht].
  now rewrite !length_insert.
Qed.

Lemma settle_loop_safe (fuel : nat) (base_currency : string) (participants : list string) :
  forall (balances : list T) (settlements : list (Settlement.t T)),
    length participants = length balances ->
    balances <> [] ->
    match settle_loop fuel base_currency participants balances settlements with
    | Ret out =>
        exists added, out = settlements ++ added
                      /\ Forall (settlement_in base_currency participants) added
    | Raise _ => False
    | Timeout => True
    end.
Proof.
  induction fuel as [|fuel IH]; intros balances settlements Hlen Hne; [exact I|].
  cbn [settle_loop].
  destruct (settle_step_safe balances Hne)
    as [-> | (di & ci & t & b' & -> & Hd & Hc & Hl & Ht)]; cbn [res_bind].
  - exists []. split; [now rewrite app_nil_r|constructor].
  - rewrite <- Hlen in Hd, Hc.
    destruct (getitem_lt _ _ Hd) as (from & -> & Hfrom).
    destruct (getitem_lt _ _ Hc) as (to & -> & Hto). cbn [res_bind].
    assert (Hne' : b' <> []).
    { intros ->. cbn [length] in Hl. destruct balances; [congruence|discriminate]. }
    specialize (IH b' (settlements ++ [Settlement.mk from to t base_currency])
                  (eq_trans Hlen (eq_sym Hl)) Hne').
    destruct (settle_loop fuel _ _ b' _) as [out| |]; [|exact IH|exact I].
    destruct IH as (added & -> & Hall).
    exists (Settlement.mk from to t base_currency :: added).
    split; [now rewrite <- app_assoc|]. constructor; [|exact Hall].
    repeat split; cbn [Settlement.from_participant Settlement.to_participant
                         Settlement.currency Settlement.amount]; try assumption.
    + apply list_elem_of_In. eapply list_elem_of_lookup_2; eassumption.
    + apply list_elem_of_In. eapply list_elem_of_lookup_2; eassumption.
Qed.

Lemma rows_of_ids (d : gmap string T) (ps : list Participant.t) :
  map BalanceRow.participant_id (rows_of d ps) = map Participant.id ps.
Proof. unfold rows_of. rewrite map_map. reflexivity. Qed.

Lemma df_column_rows {X : Type} (d : gmap string T) (ps : list Participant.t)
      (col : string) (f : BalanceRow.t T -> X) :
  ps <> [] -> df_column (rows_of d ps) col f = Ret (map f (rows_of d ps)).
Proof. destruct ps; [congruence|reflexivity]. Qed.

(** Every outcome of [calculate_optimal_settlements]. *)
Lemma calculate_optimal_settlements_cases (fuel : nat) (g : Group.t T) :
  let ids := map Participant.id (Group.participants g) in
  snd (calculate_optimal_settlements fuel g) = g
  /\ match fst (calculate_optimal_settlements fuel g) with
     | Ret settlements =>
         refs_ok g = true /\ Group.participants g <> []
         /\ Forall (settlement_in (Group.base_currency g) ids) settlements
     | Raise (KeyError k) =>
         if refs_ok g
         then Group.participants g = [] /\ k = "participant_id"%string
         else known_id ids k = false
     | Raise _ => False
     | Timeout => refs_ok g = true /\ Group.participants g <> []
     end.
Proof.
  intros ids. unfold calculate_optimal_settlements.
  pose proof (get_balances_cases g) as H.
  destruct (refs_ok g).
  - destruct H as (d & _ & _ & ->). split; [reflexivity|]. cbn [fst res_bind].
    destruct (Group.participants g) as [|p ps] eqn:E; [now split|].
    rewrite !df_column_rows by discriminate. cbn [res_bind].
    pose proof (settle_loop_safe fuel (Group.base_currency g)
                  (map BalanceRow.participant_id (rows_of d (p :: ps)))
                  (map BalanceRow.balance (rows_of d (p :: ps))) []) as HL.
    specialize (HL ltac:(now rewrite !length_map)).
    specialize (HL ltac:(discriminate)).
    destruct (settle_loop fuel _ _ _ []) as [out|e|].
    + destruct HL as (added & -> & Hall). split; [reflexivity|]. split; [discriminate|].
      cbn [app]. rewrite rows_of_ids in Hall. subst ids. rewrite ?E. exact Hall.
    + contradiction.
    + now split.
  - destruct H as (k & -> & Hk). split; [reflexivity|]. exact Hk.
Qed.

End LoopSafety.

(** X6.  [calculate_optimal_settlements] never changes the group, and the only
    exception it can raise is [KeyError]: the one of [get_balances], for an id
    that no participant has, or [KeyError('participant_id')] for a group
    without participants, whose balance table has no columns.  [np.argmax],
    [np.argmin] and the indexing of the loop never fail.  When it returns,
    every settlement is between two ids of the group, in the group's base
    currency, and of an amount that is not below 0.01. *)
Theorem calculate_optimal_settlements_outcomes :
  forall (T : Type) (A : Arith T) (fuel : nat) (g : Group.t T),
    let ids := map Participant.id (Group.participants g) in
    snd (calculate_optimal_settlements fuel g) = g
    /\ match fst (calculate_optimal_settlements fuel g) with
       | Ret settlements =>
           refs_ok g = true /\ Group.participants g <> []
           /\ forallb (fun s =>
                         known_id ids (Settlement.from_participant s)
                         && known_id ids (Settlement.to_participant s)
                         && String.eqb (Settlement.currency s) (Group.base_currency g)
                         && negb (flt (Settlement.amount s) lit_0_01)) settlements = true
       | Raise (KeyError k) =>
           if refs_ok g
           then Group.participants g = [] /\ k = "participant_id"%string
           else known_id ids k = false
       | Raise _ => False
       | Timeout => refs_ok g = true /\ Group.participants g <> []
       end.
Proof.
  intros T A fuel g ids.
  destruct (calculate_optimal_settlements_cases fuel g) as [Hg H]. split; [exact Hg|].
  destruct (fst (calculate_optimal_settlements fuel g)) as [settlements|e|]; [|exact H|exact H].
  destruct H as (Hr & Hp & Hall). split; [exact Hr|]. split; [exact Hp|].
  apply forallb_forall. intros s Hs.
  rewrite List.Forall_forall in Hall. destruct (Hall s Hs) as (Hf & Ht & Hc & Ha).
  fold ids in Hf, Ht.
  rewrite (proj2 (known_id_true ids _) Hf), (proj2 (known_id_true ids _) Ht), Hc, Ha.
  now rewrite String.eqb_refl.
Qed.

Section Names.
Context {T : Type}.

Lemma name_or_id_known (g : Group.t T) (i : string) :
  In i (map Participant.id (Group.participants g)) -> name_in_group g (name_or_id g i).
Proof.
  intros Hi. apply known_id_true in Hi.
  destruct (get_participant_by_id_known g i Hi) as [p Hp].
  unfold name_or_id. rewrite Hp. exists p. split; [|reflexivity].
  unfold Group.get_participant_by_id in Hp. now apply find_some in Hp.
Qed.

End Names.

(** X7.  [get_settlements_dataframe] has the outcome of
    [calculate_optimal_settlements], with one row per settlement, in order and
    with the same amount; payer and payee of every row are names of
    participants of the group: the fallback to the raw id is never taken. *)
Theorem get_settlements_dataframe_names :
  forall (T : Type) (A : Arith T) (fuel : nat) (g : Group.t T),
    snd (get_settlements_dataframe fuel g) = g
    /\ match fst (get_settlements_dataframe fuel g) with
       | Ret rows =>
           exists settlements,
             fst (calculate_optimal_settlements fuel g) = Ret settlements
             /\ map SettlementRow.amount rows = map Settlement.amount settlements
             /\ Forall (fun row => name_in_group g (SettlementRow.from row)
                                   /\ name_in_group g (SettlementRow.to row)) rows
       | Raise e => fst (calculate_optimal_settlements fuel g) = Raise e
       | Timeout => fst (calculate_optimal_settlements fuel g) = Timeout
       end.
Proof.
  intros T A fuel g. unfold get_settlements_dataframe.
  destruct (calculate_optimal_settlements_cases fuel g) as [Hg H].
  destruct (calculate_optimal_settlements fuel g) as [r g']. cbn [fst snd] in *. subst g'.
  split; [reflexivity|].
  destruct r as [settlements|e|]; cbn [res_bind]; [|reflexivity|reflexivity].
  destruct H as (_ & _ & Hall).
  assert (E : match settlements with
              | [] => Ret []
              | _ :: _ => Ret (map (settlement_row g) settlements)
              end = Ret (map (settlement_row g) settlements)) by now destruct settlements.
  rewrite E. exists settlements. split; [reflexivity|]. split.
  - rewrite map_map. reflexivity.
  - apply List.Forall_forall. intros row Hrow. apply in_map_iff in Hrow.
    destruct Hrow as (s & <- & Hs). rewrite List.Forall_forall in Hall.
    destruct (Hall s Hs) as (Hf & Ht & _).
    cbn [settlement_row SettlementRow.from SettlementRow.to].
    split; now apply name_or_id_known.
Qed.

(* ================================================================== *)
(** ** A group without expenses *)

Section Settled.
Context {T : Type} {A : Arith T}.

Hypothesis zero_le : fle zero_balance zero_balance = true.
Hypothesis zero_not_nan : is_nan zero_balance = false.
Hypothesis zero_small : flt zero_balance lit_0_01 = true.
Hypothesis zero_abs_small : flt (fabs zero_balance) lit_0_01 = true.

Lemma argmax_from_zeros (n max_ind i : nat) :
  argmax_from zero_balance max_ind i (repeat zero_balance n) = max_ind.
Proof using All.
  revert i. induction n as [|n IH]; intros i; [reflexivity|].
  cbn [repeat argmax_from]. rewrite zero_le. cbn [negb]. apply IH.
Qed.

Lemma argmin_from_zeros (n min_ind i : nat) :
  argmin_from zero_balance min_ind i (repeat zero_balance n) = min_ind.
Proof using All.
  revert i. induction n as [|n IH]; intros i; [reflexivity|].
  cbn [repeat argmin_from]. rewrite zero_le. cbn [negb]. apply IH.
Qed.

Lemma settle_step_zeros (n : nat) : settle_step (repeat zero_balance (S n)) = Ret None.
Proof using All.
  unfold settle_step. cbn [repeat np_argmax np_argmin].
  rewrite zero_not_nan, argmax_from_zeros, argmin_from_zeros. cbn [res_bind].
  unfold getitem. cbn [lookup list_lookup res_bind].
  now rewrite zero_small, zero_abs_small.
Qed.

Lemma rows_of_zero_balances (ps : list Participant.t) :
  map BalanceRow.balance (rows_of (zero_balances ps) ps) = repeat zero_balance (length ps).
Proof using All.
  unfold rows_of. rewrite map_map. cbn [BalanceRow.balance].
  assert (H : forall qs, (forall p, In p qs -> In p ps) ->
            map (fun p => np_round (default (of_Z 0) (zero_balances ps !! Participant.id p))) qs
            = repeat zero_balance (length qs)).
  { induction qs as [|q qs IH]; intros Hin; [reflexivity|].
    cbn [map length repeat]. f_equal.
    - rewrite zero_balances_lookup, known_id_in by (apply Hin; now left). reflexivity.
    - apply IH. intros p Hp. apply Hin. now right. }
  now apply H.
Qed.

Lemma no_expenses_no_settlements (fuel : nat) (name : string) (p : Participant.t)
      (ps : list Participant.t) (base_currency : string) :
  calculate_optimal_settlements (S fuel) (Group.mk name (p :: ps) [] base_currency)
  = (Ret [], Group.mk name (p :: ps) [] base_currency).
Proof using All.
  unfold calculate_optimal_settlements, get_balances.
  cbn [Group.participants Group.expenses aggregate res_bind].
  rewrite balance_rows_ok.
  2:{ intros q Hq. rewrite zero_balances_lookup, known_id_in by exact Hq. eauto. }
  cbn [res_bind]. rewrite !df_column_rows by discriminate. cbn [res_bind].
  rewrite rows_of_zero_balances. cbn [length settle_loop Group.base_currency].
  now rewrite settle_step_zeros.
Qed.

End Settled.

(** X8.  For a group with at least one participant and no expenses, in binary64
    and in exact arithmetic: [calculate_optimal_settlements] returns no
    settlement after one pass of its loop, [get_settlements_dataframe] has no
    rows, and [get_settlement_summary] is the text "All settled! No payments
    needed.". *)
Theorem no_expenses_all_settled :
  (forall (fuel : nat) (name : string) (p : Participant.t) (ps : list Participant.t)
          (base_currency : string) (format_2f : float -> string),
      let g := @Group.mk float name (p :: ps) [] base_currency in
      calculate_optimal_settlements (S fuel) g = (Ret [], g)
      /\ get_settlements_dataframe (S fuel) g = (Ret [], g)
      /\ get_settlement_summary format_2f (S fuel) g
         = (Ret "All settled! No payments needed."%string, g))
  /\ (forall (fuel : nat) (name : string) (p : Participant.t) (ps : list Participant.t)
             (base_currency : string) (format_2f : Qc -> string),
      let g := @Group.mk Qc name (p :: ps) [] base_currency in
      calculate_optimal_settlements (S fuel) g = (Ret [], g)
      /\ get_settlements_dataframe (S fuel) g = (Ret [], g)
      /\ get_settlement_summary format_2f (S fuel) g
         = (Ret "All settled! No payments needed."%string, g)).
Proof.
  split; intros fuel name p ps base_currency format_2f g.
  - assert (H : calculate_optimal_settlements (S fuel) g = (Ret [], g)).
    { apply no_expenses_no_settlements; vm_compute; reflexivity. }
    unfold get_settlements_dataframe, get_settlement_summary. rewrite H. now repeat split.
  - assert (H : calculate_optimal_settlements (S fuel) g = (Ret [], g)).
    { apply no_expenses_no_settlements; vm_compute; reflexivity. }
    unfold get_settlements_dataframe, get_settlement_summary. rewrite H. now repeat split.
Qed.

(* ================================================================== *)
(** ** The application ([src/main.py]) *)

Lemma dict_setitem_keys {V : Type} (d : list (string * V)) (k : string) (v : V) (k' : string) :
  In k' (map fst (dict_setitem d k v)) -> k' = k \/ In k' (map fst d).
Proof.
  induction d as [|[k0 v0] d IH]; cbn [dict_setitem map fst In].
  - intros [<-|[]]. now left.
  - destruct (String.eqb k0 k); cbn [map fst In]; tauto.
Qed.

Section AppLemmas.
Context {T : Type} {A : Arith T}.
Variable lower : string -> string.

Lemma known_id_app (l l' : list string) (k : string) :
  known_id (l ++ l') k = known_id l k || known_id l' k.
Proof. unfold known_id. apply existsb_app. Qed.

Lemma expense_refs_ok_app (ids more : list string) (e : Expense.t T) :
  expense_refs_ok ids e = true -> expense_refs_ok (ids ++ more) e = true.
Proof.
  unfold expense_refs_ok. rewrite !andb_true_iff, !forallb_forall.
  intros [Hp Hs]. split.
  - now rewrite known_id_app, Hp.
  - intros s Hin. now rewrite known_id_app, (Hs s Hin).
Qed.

Lemma refs_ok_add_participant (g : Group.t T) (name : string) (email : option string)
      (uuid : string) :
  refs_ok g = true -> refs_ok (snd (Group.add_participant g name email uuid)) = true.
Proof.
  unfold refs_ok. cbn [Group.add_participant snd Group.participants Group.expenses].
  rewrite !forallb_forall, map_app. intros H e He. apply expense_refs_ok_app. now apply H.
Qed.

Lemma refs_ok_append (g : Group.t T) (e : Expense.t T) :
  refs_ok g = true ->
  expense_refs_ok (map Participant.id (Group.participants g)) e = true ->
  refs_ok (Group.append_expense g e) = true.
Proof.
  unfold refs_ok. cbn [Group.append_expense Group.participants Group.expenses].
  intros Hg He. rewrite forallb_app, Hg. cbn [forallb]. now rewrite He.
Qed.

Lemma get_participant_by_name_in (g : Group.t T) (name : string) (p : Participant.t) :
  Group.get_participant_by_name lower g name = Some p -> In p (Group.participants g).
Proof. unfold Group.get_participant_by_name. intros H. now apply find_some in H. Qed.

Lemma names_to_ids_keys {V : Type} (g : Group.t T) (split_data by_id : list (string * V)) :
  (forall k, In k (map fst by_id) ->
             known_id (map Participant.id (Group.participants g)) k = true) ->
  forall k, In k (map fst (names_to_ids lower g split_data by_id)) ->
            known_id (map Participant.id (Group.participants g)) k = true.
Proof.
  revert by_id. induction split_data as [|[name v] rest IH]; intros by_id Hby; [exact Hby|].
  cbn [names_to_ids].
  destruct (Group.get_participant_by_name lower g name) as [p|] eqn:E; [|now apply IH].
  apply IH. intros k Hk. apply dict_setitem_keys in Hk. destruct Hk as [->|Hk].
  - apply known_id_in. eapply get_participant_by_name_in; eassumption.
  - now apply Hby.
Qed.

Lemma refs_of_keys (ids : list string) (e : Expense.t T) :
  known_id ids (Expense.paid_by e) = true ->
  (forall k, In k (map ExpenseSplit.participant_id (Expense.splits e)) ->
             known_id ids k = true) ->
  expense_refs_ok ids e = true.
Proof.
  intros Hp Hs. unfold expense_refs_ok. rewrite Hp. cbn [andb].
  apply forallb_forall. intros s Hin. apply Hs. now apply in_map.
Qed.

(** Every outcome of [add_expense]. *)
Lemma add_expense_cases (description : string) (amount : T) (paid_by_name : string)
      (request : SplitRequest T) (st : AppState) :
  exists r out st',
    add_expense lower description amount paid_by_name request st = (r, out, st')
    /\ match r with
       | Ret _ =>
           (st' = st /\ no_expense_added out)
           \/ exists g payer e,
               st = Some g
               /\ Group.get_participant_by_name lower g paid_by_name = Some payer
               /\ st' = Some (Group.append_expense g e)
               /\ out = [AddedExpense description amount (Group.base_currency g)]
               /\ Expense.description e = description
               /\ Expense.total_amount e = amount
               /\ Expense.paid_by e = Participant.id payer
               /\ Expense.currency e = "BGN"%string
               /\ expense_refs_ok (map Participant.id (Group.participants g)) e = true
       | Raise x =>
           st' = st /\ out = []
           /\ (x = ZeroDivisionError \/ x = OverflowError)
           /\ exists g split_data,
               st = Some g
               /\ request = SharesSplit (Some split_data)
               /\ forallb fits_64 (map snd (names_to_ids lower g split_data [])) = false
       | Timeout => False
       end.
Proof.
  assert (Hno : forall p : Printed T,
             (forall d a c, p <> AddedExpense d a c) -> no_expense_added [p]).
  { intros p Hp d a c [E|[]]. exact (Hp d a c E). }
  unfold add_expense. destruct st as [g|].
  2:{ do 3 eexists. split; [reflexivity|]. left. split; [reflexivity|]. now apply Hno. }
  destruct (Group.get_participant_by_name lower g paid_by_name) as [payer|] eqn:Hpayer.
  2:{ do 3 eexists. split; [reflexivity|]. left. split; [reflexivity|]. now apply Hno. }
  pose proof (get_participant_by_name_in _ _ _ Hpayer) as Hin.
  pose proof (known_id_in _ _ Hin) as Hknown.
  assert (Hkeys : forall V (data : list (string * V)) k,
             In k (map fst (names_to_ids lower g data [])) ->
             known_id (map Participant.id (Group.participants g)) k = true).
  { intros V data. apply names_to_ids_keys. intros k []. }
  destruct request as [|data|data|data|m].
  - destruct (add_expense_equal_nonempty description amount (Participant.id payer) None
                "BGN" None g) as (e & He & Hp & Hs).
    { cbn [equal_participants]. destruct (Group.participants g); [destruct Hin|discriminate]. }
    rewrite He. cbn [finish_add_expense]. do 3 eexists. split; [reflexivity|]. right.
    exists g, payer, e. rewrite add_expense_equal_unfold in He.
    destruct (equal_amounts amount _) as [amounts| |]; [|discriminate|discriminate].
    injection He as He. subst e. cbn [Group.append_expense Group.base_currency].
    repeat split; try reflexivity; try assumption.
    apply refs_of_keys; [exact Hknown|]. intros k Hk. rewrite Hs in Hk.
    now apply known_id_true.
  - destruct (no_split_data data).
    { do 3 eexists. split; [reflexivity|]. left. split; [reflexivity|]. now apply Hno. }
    unfold add_expense_percentage. destruct (negb _); cbn [finish_add_expense].
    { do 3 eexists. split; [reflexivity|]. left. split; [reflexivity|]. now apply Hno. }
    do 3 eexists. split; [reflexivity|]. right. do 3 eexists.
    repeat split; try reflexivity; try eassumption.
    apply refs_of_keys; [exact Hknown|]. cbn [Expense.splits].
    rewrite map_fst_percentage_splits. apply Hkeys.
  - destruct data as [[|entry data]|]; cbn [no_split_data data_of].
    1,3: do 3 eexists; (split; [reflexivity|]); left; split; [reflexivity|]; now apply Hno.
    pose proof (add_expense_shares_cases description amount (Participant.id payer)
                  (names_to_ids lower g (entry :: data) []) "BGN" None g) as H.
    destruct (add_expense_shares description amount (Participant.id payer)
                (names_to_ids lower g (entry :: data) []) "BGN" None g) as [[e|x|] g'];
      [| |contradiction].
    + destruct H as (-> & He & Hids & _). cbn [finish_add_expense].
      do 3 eexists. split; [reflexivity|]. right. exists g, payer, e.
      split; [reflexivity|]. split; [exact Hpayer|]. split; [reflexivity|].
      split; [reflexivity|]. rewrite He at 1 2 3 4.
      cbn [Expense.description Expense.total_amount Expense.paid_by Expense.currency].
      do 4 (split; [reflexivity|]).
      apply refs_of_keys; [rewrite He; exact Hknown|]. rewrite Hids. apply Hkeys.
    + destruct H as (-> & Hd & Hx).
      assert (Hx' : x = ZeroDivisionError \/ x = OverflowError).
      { destruct (fold_left Z.add _ 0 =? 0)%Z; [now left|now right]. }
      assert (Hfin : finish_add_expense description amount (@Raise (Expense.t T) x, g)
                     = (Raise x, [], Some g)).
      { destruct Hx' as [->| ->]; reflexivity. }
      rewrite Hfin. do 3 eexists. split; [reflexivity|].
      split; [reflexivity|]. split; [reflexivity|]. split; [exact Hx'|].
      exists g, (entry :: data). split; [reflexivity|]. split; [reflexivity|].
      rewrite forallb_fits_64. apply array_dtype_object in Hd. now rewrite Hd.
  - destruct (no_split_data data).
    { do 3 eexists. split; [reflexivity|]. left. split; [reflexivity|]. now apply Hno. }
    unfold add_expense_custom. destruct (negb _); cbn [finish_add_expense].
    { do 3 eexists. split; [reflexivity|]. left. split; [reflexivity|]. now apply Hno. }
    do 3 eexists. split; [reflexivity|]. right. do 3 eexists.
    repeat split; try reflexivity; try eassumption.
    apply refs_of_keys; [exact Hknown|]. cbn [Expense.splits].
    rewrite map_fst_custom_splits. apply Hkeys.
  - do 3 eexists. split; [reflexivity|]. left. split; [reflexivity|]. now apply Hno.
Qed.

Lemma run_command_ok (c : Command (T := T)) (st : AppState) :
  state_ok st -> state_ok (snd (run_command lower c st)).
Proof.
  intros Hst. destruct c as [name cur|name uuid|description amount payer request];
    cbn [run_command].
  - reflexivity.
  - unfold app_add_participant. destruct st as [g|]; [|exact I].
    cbn [snd state_ok]. apply (refs_ok_add_participant g name None uuid Hst).
  - destruct (add_expense_cases description amount payer request st)
      as (r & out & st' & -> & H). cbn [snd].
    destruct r as [u|x|]; [|now destruct H as [-> _]|contradiction].
    destruct H as [[-> _]|(g & p & e & -> & _ & -> & _ & _ & _ & _ & _ & He)].
    + exact Hst.
    + cbn [state_ok]. now apply refs_ok_append.
Qed.

Lemma run_commands_ok (cs : list (Command (T := T))) (st : AppState) :
  state_ok st -> state_ok (run_commands lower cs st).
Proof.
  revert st. induction cs as [|c cs IH]; intros st Hst; [exact Hst|].
  cbn [run_commands fold_left]. apply IH. now apply run_command_ok.
Qed.

End AppLemmas.

(** X9.  Every outcome of [ExpenseSplitterApp.add_expense].  The division by
    the number of participants cannot fail, because the payer was found among
    them, and [ValueError] is caught; so the call returns for an equal, a
    percentage and a custom split, for an unknown method, and for a shares
    split whose counts fit in 64 bits.  When it returns, it either leaves the
    state as it was and reports no added expense, or appends exactly one
    expense and prints one line for it.  The appended expense is paid by the
    first participant whose lower-cased name is the lower-cased payer name; its
    currency is the allocator's default "BGN", while the printed line shows the
    group's base currency.  The call raises only for a shares split in which a
    count of a known name does not fit in 64 bits: there
    [add_expense_shares] divides Python ints, and its [ZeroDivisionError] or
    [OverflowError], which [except ValueError] does not catch, goes through;
    nothing is printed and the state is as it was. *)
Theorem add_expense_outcomes :
  forall (T : Type) (A : Arith T) (lower : string -> string)
         (description : string) (amount : T) (paid_by_name : string)
         (request : SplitRequest T) (st : AppState),
  exists r out st',
    add_expense lower description amount paid_by_name request st = (r, out, st')
    /\ match r with
       | Ret _ =>
           (st' = st /\ no_expense_added out)
           \/ exists g payer e,
               st = Some g
               /\ Group.get_participant_by_name lower g paid_by_name = Some payer
               /\ st' = Some (Group.append_expense g e)
               /\ out = [AddedExpense description amount (Group.base_currency g)]
               /\ Expense.description e = description
               /\ Expense.total_amount e = amount
               /\ Expense.paid_by e = Participant.id payer
               /\ Expense.currency e = "BGN"%string
       | Raise x =>
           st' = st /\ out = []
           /\ (x = ZeroDivisionError \/ x = OverflowError)
           /\ exists g split_data,
               st = Some g
               /\ request = SharesSplit (Some split_data)
               /\ forallb fits_64 (map snd (names_to_ids lower g split_data [])) = false
       | Timeout => False
       end.
Proof.
  intros T A lower description amount paid_by_name request st.
  destruct (add_expense_cases lower description amount paid_by_name request st)
    as (r & out & st' & E & H).
  exists r, out, st'. split; [exact E|].
  destruct r as [u|x|]; [|exact H|exact H].
  destruct H as [H|(g & payer & e & Hst & Hp & Hst' & Hout & Hd & Ha & Hpb & Hc & _)].
  - now left.
  - right. exists g, payer, e. now repeat split.
Qed.

(** X10.  Whatever sequence of [create_group], [add_participant] and
    [add_expense] calls the application has run from its initial state, every
    expense of its group names participants of the group only, so
    [show_balances] does not raise the [KeyError] of [get_balances]: it returns,
    leaves the state as it is, and prints the header and then "No data" for a
    group without participants, or one line per participant and a blank
    line. *)
Theorem show_balances_after_session :
  forall (T : Type) (A : Arith T) (lower : string -> string) (cs : list Command),
    match run_commands lower cs None with
    | None => show_balances None = (Ret tt, [ErrorCreateGroupFirst], None)
    | Some g =>
        refs_ok g = true
        /\ exists rows,
            get_balances g = (Ret rows, g)
            /\ length rows = length (Group.participants g)
            /\ show_balances (Some g)
               = (Ret tt,
                  BalancesHeader
                  :: match rows with
                     | [] => [NoData]
                     | _ => map balance_line rows ++ [BlankLine]
                     end,
                  Some g)
    end.
Proof.
  intros T A lower cs.
  pose proof (run_commands_ok lower cs None I) as Hok.
  destruct (run_commands lower cs None) as [g|]; [|reflexivity].
  cbn [state_ok] in Hok. split; [exact Hok|].
  pose proof (get_balances_cases g) as H. rewrite Hok in H.
  destruct H as (d & _ & _ & Hb).
  exists (rows_of d (Group.participants g)). split; [exact Hb|].
  split; [unfold rows_of; apply length_map|].
  unfold show_balances. rewrite Hb.
  now destruct (rows_of d (Group.participants g)).
Qed.

(** X11.  After any such session, [show_settlements] raises exactly when the
    group has no participants: then it raises [KeyError('participant_id')] and
    prints nothing (a group that was just created cannot be settled).  With at
    least one participant it raises nothing. *)
Theorem show_settlements_after_session :
  forall (T : Type) (A : Arith T) (lower : string -> string) (cs : list Command)
         (format_2f : T -> string) (fuel : nat),
    match run_commands lower cs None with
    | None =>
        show_settlements format_2f fuel None = (Ret tt, [ErrorCreateGroupFirst], None)
    | Some g =>
        match Group.participants g with
        | [] =>
            Group.expenses g = []
            /\ show_settlements format_2f fuel (Some g)
               = (Raise (KeyError "participant_id"), [], Some g)
        | _ :: _ =>
            (exists text,
                show_settlements format_2f fuel (Some g) = (Ret tt, [SummaryText text], Some g))
            \/ show_settlements format_2f fuel (Some g) = (Timeout, [], Some g)
        end
    end.
Proof.
  intros T A lower cs format_2f fuel.
  pose proof (run_commands_ok lower cs None I) as Hok.
  destruct (run_commands lower cs None) as [g|]; [|reflexivity].
  cbn [state_ok] in Hok.
  destruct (calculate_optimal_settlements_cases fuel g) as [Hg H].
  unfold show_settlements, get_settlement_summary.
  destruct (calculate_optimal_settlements fuel g) as [r g']. cbn [fst snd] in Hg, H.
  subst g'. rewrite Hok in H.
  destruct (Group.participants g) as [|p ps] eqn:Hps.
  - assert (He : Group.expenses g = []).
    { unfold refs_ok in Hok. rewrite Hps in Hok.
      destruct (Group.expenses g) as [|e es]; [reflexivity|]. discriminate. }
    split; [exact He|].
    destruct r as [ss|[| | k| |]|]; try contradiction.
    + now destruct H as (_ & Hne & _).
    + destruct H as [_ ->]. reflexivity.
    + now destruct H as (_ & Hne).
  - destruct r as [ss|[| | k| |]|]; try contradiction.
    + left. cbn [res_bind]. destruct ss; eexists; reflexivity.
    + destruct H as [H _]. discriminate.
    + now right.
Qed.

Section UnknownNames.
Context {T : Type}.
Variable lower : string -> string.

Lemma names_to_ids_unknown {V : Type} (g : Group.t T) (split_data by_id : list (string * V)) :
  (forall name v, In (name, v) split_data ->
                  Group.get_participant_by_name lower g name = None) ->
  names_to_ids lower g split_data by_id = by_id.
Proof.
  revert by_id. induction split_data as [|[name v] rest IH]; intros by_id H; [reflexivity|].
  cbn [names_to_ids]. rewrite (H name v (or_introl eq_refl)).
  apply IH. intros n w Hin. apply (H n w). now right.
Qed.

End UnknownNames.

(** X12.  [add_expense] skips the names of [split_data] that no participant
    has, and says nothing.  For a shares split whose names are all unknown (a
    misspelt name, say) it reports an added expense, and the expense it has
    appended has no splits at all: the payer is credited with the total and
    nobody is debited. *)
Theorem add_expense_shares_unknown_names :
  forall (T : Type) (A : Arith T) (lower : string -> string) (g : Group.t T)
         (description : string) (amount : T) (paid_by_name : string)
         (payer : Participant.t) (split_data : list (string * Z)),
    Group.get_participant_by_name lower g paid_by_name = Some payer ->
    split_data <> [] ->
    (forall name share_count, In (name, share_count) split_data ->
                              Group.get_participant_by_name lower g name = None) ->
    add_expense lower description amount paid_by_name (SharesSplit (Some split_data)) (Some g)
    = (Ret tt, [AddedExpense description amount (Group.base_currency g)],
       Some (Group.append_expense g
               (Expense.mk description amount (Participant.id payer) "BGN" SHARES []
                  false None))).
Proof.
  intros T A lower g description amount paid_by_name payer split_data Hpayer Hne Hunknown.
  unfold add_expense. rewrite Hpayer.
  destruct split_data as [|x rest]; [congruence|]. cbn [no_split_data data_of].
  rewrite (names_to_ids_unknown lower g (x :: rest) [] Hunknown).
  reflexivity.
Qed.

Lemma add_expense_shares_unknown_names_witness :
  add_expense str_lower "Gift" 10%float "a" (SharesSplit (Some [("Zed"%string, 1%Z)]))
    (Some (@trio float))
  = (Ret tt, [AddedExpense "Gift" 10%float "BGN"],
     Some (Group.append_expense trio
             (Expense.mk "Gift" 10%float "A" "BGN" SHARES [] false None))).
Proof.
  apply (add_expense_shares_unknown_names float F64 str_lower trio "Gift" 10%float "a"
           (person "A") [("Zed"%string, 1%Z)]).
  - reflexivity.
  - discriminate.
  - intros name share_count [E|[]]. injection E as <- <-. reflexivity.
Defined.

(* ================================================================== *)
(** ** Currency conversion ([src/currency.py]) *)

Section CurrencyLemmas.
Context {T : Type} {A : Arith T}.

Lemma dict_is_empty_spec (d : gmap string T) : dict_is_empty d = true <-> d = ∅.
Proof.
  unfold dict_is_empty. rewrite <- (map_to_list_empty_iff d).
  destruct (map_to_list d); split; intros H; first [reflexivity | discriminate].
Qed.

Lemma py_truediv_not_fetch (x y : T) (s : Z) : py_truediv x y <> Failed (FetchFailed s).
Proof. unfold py_truediv. destruct (feq y (of_Z 0)); discriminate. Qed.

End CurrencyLemmas.

(** X13.  When [convert] asks the rates service.  Equal currency codes return
    the amount as it is (not rounded) without looking at the rates.  With a
    valid cache nothing is fetched: the result does not depend on what the
    service would answer, and the converter is unchanged.  Otherwise the rates
    are fetched: a status other than 200 makes the call fail with that status
    and leaves the converter as it was, a status of 200 replaces the cache and
    its timestamp.  So [convert] fails with "Failed to fetch rates" exactly
    when the codes differ, the cache is not valid and the status is not 200. *)
Theorem convert_fetches_when_needed :
  forall (T : Type) (A : Arith T) (now : Z) (response : Response T) (fetch_time : Z)
         (amount : T) (from_currency to_currency : string) (c : CurrencyConverter.t T),
    let run := convert now response fetch_time amount from_currency to_currency c in
    (if String.eqb from_currency to_currency then run = (Done amount, c)
     else if _is_cache_valid now c then
       snd run = c
       /\ forall response' fetch_time',
           convert now response' fetch_time' amount from_currency to_currency c = run
     else if (status response =? 200)%Z then
       snd run = CurrencyConverter.mk (CurrencyConverter.base_currency c)
                   (default ∅ (rates response)) (Some fetch_time)
     else run = (Failed (FetchFailed (status response)), c))
    /\ (forall s,
          fst run = Failed (FetchFailed s)
          <-> String.eqb from_currency to_currency = false
              /\ _is_cache_valid now c = false
              /\ status response = s /\ s <> 200%Z).
Proof.
  intros T A now response fetch_time amount from_currency to_currency c run.
  subst run. unfold convert, get_rates, fetch_rates.
  destruct (String.eqb from_currency to_currency).
  { split; [reflexivity|]. intros s. split; [discriminate|]. now intros [H _]. }
  destruct (_is_cache_valid now c).
  { split.
    - split; [|reflexivity].
      repeat match goal with
             | |- context [if ?b then _ else _] => destruct b
             | |- context [match py_truediv ?x ?y with _ => _ end] => destruct (py_truediv x y)
             end; reflexivity.
    - intros s. split; [|now intros (_ & H & _)].
      intros H. exfalso.
      repeat match type of H with
             | context [if ?b then _ else _] => destruct b
             | context [match py_truediv ?x ?y with _ => _ end] =>
                 let E := fresh "E" in
                 destruct (py_truediv x y) eqn:E
             end; cbn [fst] in H; try discriminate;
        injection H as ->; eapply py_truediv_not_fetch; eassumption. }
  destruct (Z.eqb_spec (status response) 200) as [E200|E200].
  - split.
    + cbn [CurrencyConverter.base_currency].
      repeat match goal with
             | |- context [if ?b then _ else _] => destruct b
             | |- context [match py_truediv ?x ?y with _ => _ end] => destruct (py_truediv x y)
             end; reflexivity.
    + intros s. split; [|intros (_ & _ & <- & H); contradiction].
      intros H. exfalso. cbn [CurrencyConverter.base_currency] in H.
      repeat match type of H with
             | context [if ?b then _ else _] => destruct b
             | context [match py_truediv ?x ?y with _ => _ end] =>
                 let E := fresh "E" in
                 destruct (py_truediv x y) eqn:E
             end; cbn [fst] in H; try discriminate;
        injection H as ->; eapply py_truediv_not_fetch; eassumption.
  - split; [reflexivity|]. intros s. cbn [fst]. split.
    + intros H. injection H as <-. now repeat split.
    + intros (_ & _ & <- & _). reflexivity.
Qed.

(** X14.  How long fetched rates are used.  After [fetch_rates] has got an
    answer with status 200 at time [fetch_time], [get_rates] returns the
    fetched rates without asking the service again as long as less than one
    hour has passed since then, and fetches again afterwards.  An answer
    without rates, or with an empty table of rates, is stored but never used:
    every later [get_rates] fetches again.  An answer with another status
    raises and leaves the converter as it was. *)
Theorem fetched_rates_are_cached_for_an_hour :
  forall (T : Type) (A : Arith T) (response : Response T) (fetch_time : Z)
         (c : CurrencyConverter.t T),
    (forall d : gmap string T, dict_is_empty d = true <-> d = ∅)
    /\ if (status response =? 200)%Z then
         let fetched := default ∅ (rates response) in
         let c' := CurrencyConverter.mk (CurrencyConverter.base_currency c) fetched
                     (Some fetch_time) in
         fetch_rates response fetch_time c = (Done fetched, c')
         /\ forall now response' fetch_time',
             get_rates now response' fetch_time' c'
             = if dict_is_empty fetched || (fetch_time + CACHE_DURATION <=? now)%Z
               then fetch_rates response' fetch_time' c'
               else (Done fetched, c')
       else fetch_rates response fetch_time c = (Failed (FetchFailed (status response)), c).
Proof.
  intros T A response fetch_time c. split; [apply dict_is_empty_spec|].
  unfold fetch_rates. destruct (status response =? 200)%Z; [|reflexivity].
  cbn zeta. split; [reflexivity|]. intros now response' fetch_time'.
  unfold get_rates, _is_cache_valid.
  cbn [CurrencyConverter._cache_timestamp CurrencyConverter._rates_cache].
  destruct (dict_is_empty (default ∅ (rates response))); cbn [orb]; [reflexivity|].
  destruct (Z.ltb_spec (now - fetch_time) CACHE_DURATION),
           (Z.leb_spec (fetch_time + CACHE_DURATION) now); first [reflexivity | lia].
Qed.

Section ExactCurrency.
Local Open Scope Qc_scope.

Lemma Qc_eq_bool_false (x y : Qc) : x <> y -> Qc_eq_bool x y = false.
Proof.
  intros H. destruct (Qc_eq_bool x y) eqn:E; [|reflexivity].
  apply Qc_eq_bool_correct in E. contradiction.
Qed.

Lemma Qc_eq_bool_refl (x : Qc) : Qc_eq_bool x x = true.
Proof. unfold Qc_eq_bool. destruct (Qcanon.Qc_eq_dec x x); [reflexivity|contradiction]. Qed.

(** [convert] with a valid cache, in exact arithmetic: the amount times the
    rate of the target over the rate of the source, rounded to cents. *)
Lemma convert_exact (now : Z) (response : Response Qc) (fetch_time : Z) (amount : Qc)
      (from_currency to_currency : string) (c : CurrencyConverter.t Qc) :
  _is_cache_valid now c = true ->
  from_currency <> to_currency ->
  convert now response fetch_time amount from_currency to_currency c
  = (if Qc_eq_bool (effective_rate c from_currency) (Q2Qc 0) then Failed RateIsZero
     else Done (np_round (amount * effective_rate c to_currency
                          / effective_rate c from_currency)), c).
Proof.
  intros Hvalid Hne. unfold convert, get_rates, effective_rate, py_truediv. rewrite Hvalid.
  change (@fmul Qc Exact) with Qcmult. change (@fdiv Qc Exact) with Qcdiv.
  change (@feq Qc Exact) with Qc_eq_bool. change (@of_Z Qc Exact 1) with (Q2Qc 1).
  change (@of_Z Qc Exact 0) with (Q2Qc 0).
  destruct (String.eqb_spec from_currency to_currency) as [E|_]; [contradiction|].
  destruct (String.eqb_spec from_currency (CurrencyConverter.base_currency c)) as [Ef|Ef].
  - destruct (String.eqb_spec to_currency (CurrencyConverter.base_currency c)) as [Et|Et];
      [congruence|].
    replace (Qc_eq_bool (Q2Qc 1) (Q2Qc 0)) with false by reflexivity.
    do 3 f_equal. field. discriminate.
  - destruct (String.eqb_spec to_currency (CurrencyConverter.base_currency c)) as [Et|Et].
    + destruct (Qc_eq_bool _ (Q2Qc 0)) eqn:E0; [reflexivity|].
      do 3 f_equal. field.
      intros H. rewrite H in E0. now rewrite Qc_eq_bool_refl in E0.
    + destruct (Qc_eq_bool _ (Q2Qc 0)) eqn:E0; [reflexivity|].
      do 3 f_equal. field.
      intros H. rewrite H in E0. now rewrite Qc_eq_bool_refl in E0.
Qed.

Lemma Qcinv_nonneg (r : Qc) : Q2Qc 0 < r -> Q2Qc 0 <= / r.
Proof.
  intros H. unfold Qcle, Qclt in *. unfold Qcinv.
  change (Qcanon.this (Q2Qc 0)) with 0%Q in *.
  rewrite this_Q2Qc. apply Qinv_le_0_compat. now apply Qlt_le_weak.
Qed.

End ExactCurrency.

(** X15.  What [convert] computes from a valid cache, in exact arithmetic, for
    two different codes: the amount times the rate of the target over the rate
    of the source, rounded to two decimals once, at the end, where the rate of
    the base currency is 1 whatever the table holds for it, and the rate of a
    code that the table does not hold is 1.0 as well: an unknown or misspelt
    currency code is converted like the base currency, without an error.  A
    source rate of zero raises [ZeroDivisionError]. *)
Theorem convert_formula :
  forall (now : Z) (response : Response Qc) (fetch_time : Z) (amount : Qc)
         (from_currency to_currency : string) (c : CurrencyConverter.t Qc),
    _is_cache_valid now c = true ->
    from_currency <> to_currency ->
    convert now response fetch_time amount from_currency to_currency c
    = (if Qc_eq_bool (effective_rate c from_currency) (Q2Qc 0) then Failed RateIsZero
       else Done (np_round (amount * effective_rate c to_currency
                            / effective_rate c from_currency)%Qc), c)
    /\ effective_rate c (CurrencyConverter.base_currency c) = Q2Qc 1
    /\ (forall currency,
           CurrencyConverter._rates_cache c !! currency = None ->
           effective_rate c currency = Q2Qc 1).
Proof.
  intros now response fetch_time amount from_currency to_currency c Hvalid Hne.
  split; [now apply convert_exact|]. unfold effective_rate, rate_of. split.
  - now rewrite String.eqb_refl.
  - intros currency ->. now destruct (String.eqb _ _).
Qed.

Lemma convert_formula_witness :
  convert 1000 {| status := 500; rates := None |} 1000 (cents 1000) "BGN" "EUR" euro_converter
  = (Done (cents 510), euro_converter)
  /\ convert 1000 {| status := 500; rates := None |} 1000 (cents 1000) "BGN" "EUQ"
       euro_converter
     = (Done (cents 1000), euro_converter).
Proof.
  split.
  - destruct (convert_formula 1000 {| status := 500; rates := None |} 1000 (cents 1000)
                "BGN" "EUR" euro_converter) as (-> & _ & _);
      [vm_compute; reflexivity | discriminate |].
    reflexivity.
  - destruct (convert_formula 1000 {| status := 500; rates := None |} 1000 (cents 1000)
                "BGN" "EUQ" euro_converter) as (-> & _ & _);
      [vm_compute; reflexivity | discriminate |].
    reflexivity.
Defined.

(** X16.  Converting an amount from the base currency to another currency and
    back does not return the amount in general: each conversion rounds to two
    decimals.  With a valid cache and a positive rate [r], in exact
    arithmetic, the amount that comes back differs from the original by at
    most 0.005 * (1 + 1/r); at a rate of one half, 0.01 becomes 0.00 and comes
    back as 0.00. *)
Theorem convert_round_trip_error :
  forall (now now' : Z) (response response' : Response Qc) (fetch_time fetch_time' : Z)
         (amount : Qc) (currency : string) (c : CurrencyConverter.t Qc),
    _is_cache_valid now c = true ->
    _is_cache_valid now' c = true ->
    currency <> CurrencyConverter.base_currency c ->
    (Q2Qc 0 < rate_of (CurrencyConverter._rates_cache c) currency)%Qc ->
    exists there back : Qc,
      convert now response fetch_time amount (CurrencyConverter.base_currency c) currency c
      = (Done there, c)
      /\ convert now' response' fetch_time' there currency (CurrencyConverter.base_currency c) c
         = (Done back, c)
      /\ (Qcabs (back - amount)
          <= Q2Qc (1 # 200)
             * (1 + / rate_of (CurrencyConverter._rates_cache c) currency))%Qc.
Proof.
  intros now now' response response' fetch_time fetch_time' amount currency c
         Hvalid Hvalid' Hne Hpos.
  set (r := rate_of (CurrencyConverter._rates_cache c) currency) in *.
  assert (Hr : r <> Q2Qc 0).
  { intros E. rewrite E in Hpos. now apply Qclt_not_eq in Hpos. }
  assert (Eb : effective_rate c (CurrencyConverter.base_currency c) = Q2Qc 1).
  { unfold effective_rate. now rewrite String.eqb_refl. }
  assert (Ec : effective_rate c currency = r).
  { unfold effective_rate. now destruct (String.eqb_spec currency
                                           (CurrencyConverter.base_currency c)). }
  rewrite (convert_exact now response fetch_time amount _ currency c Hvalid)
    by congruence.
  rewrite Eb, Ec. replace (Qc_eq_bool (Q2Qc 1) (Q2Qc 0)) with false by reflexivity.
  eexists. eexists. split; [reflexivity|].
  rewrite (convert_exact now' response' fetch_time' _ currency _ c Hvalid' Hne).
  rewrite Eb, Ec, (Qc_eq_bool_false r (Q2Qc 0) Hr). split; [reflexivity|].
  set (x := (amount * r / Q2Qc 1)%Qc).
  set (y := (np_round x * Q2Qc 1 / r)%Qc).
  pose proof (np_round_err x) as Hx. pose proof (np_round_err y) as Hy.
  assert (E : (np_round y - amount = (np_round y - y) + (np_round x - x) * / r)%Qc).
  { subst y x. field. split; [exact Hr|discriminate]. }
  rewrite E. eapply Qcle_trans; [apply Qcabs_triangle|].
  rewrite Qcabs_Qcmult, (Qcabs_pos (/ r)) by now apply Qcinv_nonneg.
  rewrite Qcmult_plus_distr_r, Qcmult_1_r.
  apply Qcplus_le_compat; [exact Hy|].
  apply Qcmult_le_compat_r; [exact Hx|now apply Qcinv_nonneg].
Qed.

Lemma convert_round_trip_error_witness :
  exists there back : Qc,
    convert 10 {| status := 500; rates := None |} 10 (cents 1) "BGN" "XXX" half_converter
    = (Done there, half_converter)
    /\ convert 20 {| status := 500; rates := None |} 20 there "XXX" "BGN" half_converter
       = (Done back, half_converter)
    /\ (Qcabs (back - cents 1) <= Q2Qc (1 # 200) * (1 + / Q2Qc (1 # 2)))%Qc.
Proof.
  apply (convert_round_trip_error 10 20 {| status := 500; rates := None |}
           {| status := 500; rates := None |} 10 20 (cents 1) "XXX" half_converter).
  - vm_compute. reflexivity.
  - vm_compute. reflexivity.
  - discriminate.
  - reflexivity.
Defined.

(* ================================================================== *)
(** ** Percentage and shares splits are not remainder-corrected *)

Section RoundedSplits.
Local Open Scope Qc_scope.

Lemma fold_left_Qcplus (l : list Qc) (a : Qc) : fold_left Qcplus l a = a + Qcsum l.
Proof.
  revert a. induction l as [|x l IH]; intros a; cbn [fold_left Qcsum foldr].
  - ring.
  - rewrite IH. fold (Qcsum l). ring.
Qed.

Lemma np_sum_Qcsum (l : list Qc) : np_sum l = Qcsum l.
Proof.
  unfold np_sum. change (@fadd Qc Exact) with Qcplus. rewrite fold_left_Qcplus.
  change (@of_Z Qc Exact 0) with (Q2Qc 0). ring.
Qed.

Lemma Qcleb_true (x y : Qc) : x <= y -> Qcleb x y = true.
Proof.
  intros H. unfold Qcleb. destruct (Qccompare x y) eqn:E; try reflexivity.
  exfalso. apply H. exact E.
Qed.

Lemma np_isclose_same (x : Qc) : np_isclose x x = true.
Proof.
  unfold np_isclose. cbn [is_finite Exact andb].
  change (@fle Qc Exact) with Qcleb. change (@fabs Qc Exact) with Qcabs.
  change (@fsub Qc Exact) with Qcminus. change (@fadd Qc Exact) with Qcplus.
  change (@fmul Qc Exact) with Qcmult.
  apply Qcleb_true. replace (x - x) with (Q2Qc 0) by ring.
  rewrite (Qcabs_pos (Q2Qc 0)) by discriminate.
  replace (Q2Qc 0) with (Q2Qc 0 + Q2Qc 0) at 1 by ring.
  apply Qcplus_le_compat; [discriminate|].
  replace (Q2Qc 0) with (Q2Qc 0 * Qcabs x) by ring.
  apply Qcmult_le_compat_r; [discriminate|apply Qcabs_nonneg].
Qed.

(** Rounding each of [n] amounts to cents moves their sum by at most [n] half
    cents. *)
Lemma Qcsum_round_err {X : Type} (f : X -> Qc) (l : list X) :
  Qcabs (Qcsum (map (fun i => np_round (f i)) l) - Qcsum (map f l))
  <= Q2Qc (Z.of_nat (length l) # 200).
Proof.
  induction l as [|i l IH].
  - cbn [map Qcsum foldr length]. replace (Q2Qc 0 - Q2Qc 0) with (Q2Qc 0) by ring.
    discriminate.
  - cbn [map Qcsum foldr]. fold (Qcsum (map (fun i => np_round (f i)) l)).
    fold (Qcsum (map f l)).
    replace (np_round (f i) + Qcsum (map (fun i => np_round (f i)) l)
             - (f i + Qcsum (map f l)))
      with ((np_round (f i) - f i)
            + (Qcsum (map (fun i => np_round (f i)) l) - Qcsum (map f l))) by ring.
    eapply Qcle_trans; [apply Qcabs_triangle|].
    replace (Q2Qc (Z.of_nat (length (i :: l)) # 200))
      with (Q2Qc (1 # 200) + Q2Qc (Z.of_nat (length l) # 200)).
    + apply Qcplus_le_compat; [apply np_round_err|exact IH].
    + apply Qc_is_canon. cbn [length]. rewrite Nat2Z.inj_succ.
      unfold Qcplus. repeat rewrite this_Q2Qc.
      unfold Qeq, Qplus. cbn [Qnum Qden]. lia.
Qed.

Lemma Qcsum_scale {X : Type} (t : Qc) (f : X -> Qc) (l : list X) :
  Qcsum (map (fun i => t * f i) l) = t * Qcsum (map f l).
Proof.
  induction l as [|i l IH]; cbn [map Qcsum foldr]; [ring|].
  fold (Qcsum (map (fun i => t * f i) l)). fold (Qcsum (map f l)). rewrite IH. ring.
Qed.

Lemma Qcsum_scale_r {X : Type} (t : Qc) (f : X -> Qc) (l : list X) :
  Qcsum (map (fun i => f i * t) l) = Qcsum (map f l) * t.
Proof.
  induction l as [|i l IH]; cbn [map Qcsum foldr]; [ring|].
  fold (Qcsum (map (fun i => f i * t) l)). fold (Qcsum (map f l)). rewrite IH. ring.
Qed.










End RoundedSplits.

(** X17.  A percentage split is not remainder-corrected.  In exact arithmetic,
    when the percentages sum to exactly 100, [add_expense_percentage] returns
    and appends its expense, each split is its percentage of the total rounded
    to cents, and the splits sum to the total up to half a cent per split, and
    not closer in general. *)
Theorem add_expense_percentage_deviation :
  forall (g : Group.t Qc) (description : string) (total_amount : Qc) (paid_by : string)
         (percentages : list (string * Qc)) (currency : string) (category : option string),
    Qcsum (map snd percentages) = Q2Qc 100 ->
    exists e : Expense.t Qc,
      add_expense_percentage description total_amount paid_by percentages currency category g
      = (Ret e, Group.append_expense g e)
      /\ map ExpenseSplit.amount (Expense.splits e)
         = map (fun p => np_round (total_amount * (snd p / Q2Qc 100))%Qc) percentages
      /\ (Qcabs (Qcsum (map ExpenseSplit.amount (Expense.splits e)) - total_amount)
          <= Q2Qc (Z.of_nat (length percentages) # 200))%Qc.
Proof.
  intros g description total_amount paid_by percentages currency category Hsum.
  unfold add_expense_percentage.
  rewrite np_sum_Qcsum, Hsum. change (@of_Z Qc Exact 100) with (Q2Qc 100).
  rewrite np_isclose_same. cbn [negb].
  eexists. split; [reflexivity|]. cbn [Expense.splits]. rewrite map_map.
  assert (E : map (fun x : string * Qc =>
                     ExpenseSplit.amount
                       (let '(pid, pct) := x in
                        ExpenseSplit.mk pid
                          (np_round (fmul total_amount (fdiv pct (Q2Qc 100)))) (Some pct) None))
                  percentages
              = map (fun p => np_round (total_amount * (snd p / Q2Qc 100))%Qc) percentages).
  { apply map_ext. now intros [pid pct]. }
  rewrite E. split; [reflexivity|].
  pose proof (Qcsum_round_err
                (fun p : string * Qc => (total_amount * (snd p / Q2Qc 100))%Qc) percentages)
    as Herr.
  assert (Es : Qcsum (map (fun p : string * Qc => (total_amount * (snd p / Q2Qc 100))%Qc)
                        percentages) = total_amount).
  { rewrite (Qcsum_scale total_amount (fun p : string * Qc => (snd p / Q2Qc 100)%Qc)).
    unfold Qcdiv.
    rewrite (Qcsum_scale_r (/ Q2Qc 100) (@snd string Qc)), Hsum.
    field. discriminate. }
  rewrite Es in Herr. exact Herr.
Qed.

Lemma add_expense_percentage_deviation_witness :
  exists e : Expense.t Qc,
    add_expense_percentage "Rent" (cents 10000) "A"
      [("A"%string, Q2Qc (100 # 3)); ("B"%string, Q2Qc (100 # 3)); ("C"%string, Q2Qc (100 # 3))]
      "BGN" None trio
    = (Ret e, Group.append_expense trio e)
    /\ map ExpenseSplit.amount (Expense.splits e)
       = map (fun p => np_round (cents 10000 * (snd p / Q2Qc 100))%Qc)
           [("A"%string, Q2Qc (100 # 3)); ("B"%string, Q2Qc (100 # 3));
            ("C"%string, Q2Qc (100 # 3))]
    /\ (Qcabs (Qcsum (map ExpenseSplit.amount (Expense.splits e)) - cents 10000)
        <= Q2Qc (Z.of_nat 3 # 200))%Qc.
Proof.
  apply (add_expense_percentage_deviation trio "Rent" (cents 10000) "A"
           [("A"%string, Q2Qc (100 # 3)); ("B"%string, Q2Qc (100 # 3));
            ("C"%string, Q2Qc (100 # 3))] "BGN" None).
  apply Qc_is_canon. vm_compute. reflexivity.
Defined.



(** X19.  After any session of [create_group], [add_participant] and
    [add_expense] calls, [show_expenses] returns and prints the header and
    then "No expenses recorded", or one line per expense, in the order the
    expenses were added, and a blank line; the payer shown on every line is the
    name of a participant of the group, never a raw id. *)
Theorem show_expenses_after_session :
  forall (T : Type) (A : Arith T) (lower : string -> string) (cs : list Command),
    match run_commands lower cs None with
    | None => show_expenses (T := T) None = (Ret tt, [ErrorCreateGroupFirst], None)
    | Some g =>
        exists rows,
          get_expense_summary g = (Ret rows, g)
          /\ map ExpenseSummaryRow.description rows
             = map Expense.description (Group.expenses g)
          /\ Forall (fun row => name_in_group g (ExpenseSummaryRow.paid_by row)) rows
          /\ show_expenses (Some g)
             = (Ret tt,
                ExpensesHeader
                :: match rows with
                   | [] => [NoExpenses]
                   | _ => map expense_line rows ++ [BlankLine]
                   end,
                Some g)
    end.
Proof.
  intros T A lower cs.
  pose proof (run_commands_ok lower cs None I) as Hok.
  destruct (run_commands lower cs None) as [g|]; [|reflexivity].
  cbn [state_ok] in Hok.
  exists (map (expense_summary_row g) (Group.expenses g)).
  split; [apply get_expense_summary_rows|]. split; [now rewrite map_map|]. split.
  - apply List.Forall_forall. intros row Hrow. apply in_map_iff in Hrow.
    destruct Hrow as (e & <- & He). cbn [expense_summary_row ExpenseSummaryRow.paid_by].
    apply name_or_id_known. apply known_id_true.
    unfold refs_ok in Hok. rewrite forallb_forall in Hok. specialize (Hok e He).
    unfold expense_refs_ok in Hok. apply andb_true_iff in Hok. apply Hok.
  - unfold show_expenses. rewrite get_expense_summary_rows.
    now destruct (map (expense_summary_row g) (Group.expenses g)).
Qed.
